(** * rdm.tex: Markdown-with-front-matter to LaTeX, the line patching passes

    A shallow embedding of [rdm/tex.py].  Python lists of lines are
    [list string]; the in-place mutation of [tex_lines] is explicit state
    passing; exceptions are an [outcome] next to the final state, so that
    what a pass has already written when it raises stays observable. *)

From Stdlib Require Import ZArith Ascii String DecimalString.
From stdpp Require Import base option list strings gmap.

Local Open Scope string_scope.
Local Open Scope list_scope.

(** ** Python strings *)

Module PyStr.

Definition startswith (p s : string) : bool := String.prefix p s.

(** [s[:n]] and [s[n:]] for [0 <= n]. *)
Fixpoint take (n : nat) (s : string) : string :=
  match n, s with
  | S k, String c r => String c (take k r)
  | _, _ => ""
  end.

Fixpoint drop (n : nat) (s : string) : string :=
  match n, s with
  | S k, String _ r => drop k r
  | _, _ => s
  end.

Definition endswith (suf s : string) : bool :=
  bool_decide (String.length suf <= String.length s) &&
  String.eqb (drop (String.length s - String.length suf) s) suf.

(** [s.split(sep)] for a non-empty [sep] (Python raises [ValueError] on
    an empty one; the only call site passes a literal).  The scan goes
    left to right; at a position where [sep] starts, the current part is
    closed and the next [length sep] characters are skipped.  The pair is
    the part being built and the parts after it. *)
Fixpoint split_go (sep : string) (skip : nat) (s : string) : string * list string :=
  match s with
  | "" => ("", [])
  | String c r =>
      match skip with
      | S k => split_go sep k r
      | O =>
          if String.prefix sep s
          then ("", let '(p, ps) := split_go sep (String.length sep - 1) r in p :: ps)
          else let '(p, ps) := split_go sep 0 r in (String c p, ps)
      end
  end.

Definition split (sep s : string) : list string :=
  let '(p, ps) := split_go sep 0 s in p :: ps.

(** [sep.join(parts)] *)
Definition join (sep : string) (parts : list string) : string :=
  String.concat sep parts.

(** [s.rfind(c)] for a one-character [c]; [None] stands for [-1]. *)
Fixpoint rfind (c : ascii) (s : string) : option nat :=
  match s with
  | "" => None
  | String a r =>
      match rfind c r with
      | Some i => Some (S i)
      | None => if Ascii.eqb a c then Some 0 else None
      end
  end.

(** [s.rstrip(c)] for a one-character [c]. *)
Fixpoint rstrip (c : ascii) (s : string) : string :=
  match s with
  | "" => ""
  | String a r =>
      match rstrip c r with
      | "" => if Ascii.eqb a c then "" else String a ""
      | r' => String a r'
      end
  end.

Fixpoint all_chars (c : ascii) (s : string) : bool :=
  match s with
  | "" => true
  | String a r => Ascii.eqb a c && all_chars c r
  end.

Fixpoint contains_char (c : ascii) (s : string) : bool :=
  match s with
  | "" => false
  | String a r => Ascii.eqb a c || contains_char c r
  end.

(** [str(n)] for an [int]. *)
Definition of_Z (z : Z) : string := NilZero.string_of_int (Z.to_int z).

End PyStr.

Definition nl : ascii := "010"%char.
Definition NL : string := String nl "".

(** ** Exceptions, and state passing with exceptions *)

Inductive exn_class :=
  | ValueError | KeyError | TypeError | IndexError | FileNotFoundError | ExternalError.

(** An exception: its class and its argument (the message given by the
    source where it raises itself, the offending item for the built-in
    ones). *)
Record exn := Exn { exn_cls : exn_class; exn_arg : string }.

Inductive outcome (A : Type) :=
  | Returned (a : A)
  | Raised (e : exn).
Arguments Returned {A} a.
Arguments Raised {A} e.

(** A computation over a mutable store [S]: the store after it is part of
    the result whether it returns or raises. *)
Definition M (S A : Type) : Type := S -> outcome A * S.

Definition ret {S A} (a : A) : M S A := fun s => (Returned a, s).

Definition bind {S A B} (m : M S A) (k : A -> M S B) : M S B :=
  fun s => match m s with
           | (Returned a, s') => k a s'
           | (Raised e, s') => (Raised e, s')
           end.

Definition raise {S A} (e : exn) : M S A := fun s => (Raised e, s).
Definition get {S} : M S S := fun s => (Returned s, s).
Definition modify {S} (f : S -> S) : M S unit := fun s => (Returned tt, f s).

(** A pure expression that may raise. *)
Definition eval {S A} (o : outcome A) : M S A := fun s => (o, s).

Global Instance exn_class_eq_dec : EqDecision exn_class.
Proof. solve_decision. Defined.

(** [try: body / except cls: handler], the handler given the exception it
    caught; what the handler raises goes out. *)
Definition try_except {S A} (body : M S A) (cls : exn_class)
    (handler : exn -> M S A) : M S A :=
  fun s => match body s with
           | (Raised e, s') =>
               if bool_decide (exn_cls e = cls) then handler e s' else (Raised e, s')
           | r => r
           end.

Notation "x <- m ;; k" := (bind m (fun x => k))
  (at level 100, m at next level, right associativity).
Notation "m ;;; k" := (bind m (fun _ => k))
  (at level 100, right associativity).

Definition obind {A B} (o : outcome A) (k : A -> outcome B) : outcome B :=
  match o with
  | Returned a => k a
  | Raised e => Raised e
  end.

(** ** Python lists of lines *)

Module PyList.

(** [l.index(x)]: the first position of [x], [ValueError] when absent. *)
Fixpoint find (x : string) (l : list string) : option nat :=
  match l with
  | [] => None
  | y :: r => if String.eqb y x then Some 0 else S <$> find x r
  end.

Definition index (x : string) : M (list string) nat :=
  fun l => match find x l with
           | Some i => (Returned i, l)
           | None => (Raised (Exn ValueError x), l)
           end.

(** [l.insert(i, x)] for [0 <= i]; past the end it appends. *)
Definition insert_at (i : nat) (x : string) (l : list string) : list string :=
  take i l ++ x :: drop i l.

Definition insert (i : nat) (x : string) : M (list string) unit :=
  modify (insert_at i x).

(** [l[i]] for [0 <= i], [IndexError] out of range. *)
Definition getitem (i : nat) : M (list string) string :=
  fun l => match l !! i with
           | Some x => (Returned x, l)
           | None => (Raised (Exn IndexError "list index out of range"), l)
           end.

End PyList.

(** ** Front matter *)

(** The scalars a YAML document holds (floats, dates and nested
    collections are left out). *)
Inductive value :=
  | VNone
  | VBool (b : bool)
  | VInt (z : Z)
  | VStr (s : string).

(** What [yaml.load] hands back: a mapping with string keys, or a bare
    scalar when the block is not a mapping. *)
Inductive yaml_doc :=
  | YMapping (m : gmap string value)
  | YScalar (v : value).

(** [front_matter[key]] *)
Definition subscript (front_matter : yaml_doc) (key : string) : outcome value :=
  match front_matter with
  | YMapping m =>
      match m !! key with
      | Some v => Returned v
      | None => Raised (Exn KeyError key)
      end
  | YScalar _ => Raised (Exn TypeError "object is not subscriptable by str")
  end.

(** [s + v] with [s] a [str] *)
Definition str_add (s : string) (v : value) : outcome string :=
  match v with
  | VStr t => Returned (s +:+ t)
  | _ => Raised (Exn TypeError "can only concatenate str to str")
  end.

(** [str(v)] *)
Definition py_str (v : value) : string :=
  match v with
  | VNone => "None"
  | VBool true => "True"
  | VBool false => "False"
  | VInt z => PyStr.of_Z z
  | VStr s => s
  end.

(** ** The line patching passes *)

Definition begin_document : string := "\begin{document}".
Definition documentclass_one_line : string := "\documentclass[]{article}".
Definition documentclass_open : string := "\documentclass[".
Definition documentclass_close : string := "]{article}".
Definition geometry : string := "\usepackage[margin=1.25in]{geometry}".

(** [_insert_liness]: [for line in reversed(new_lines): existing.insert(index, line)] *)
Definition _insert_liness (index : nat) (new_lines : list string) : M (list string) unit :=
  foldr (fun line k => PyList.insert index line ;;; k) (ret tt) (reverse new_lines).

Definition toc_after : list string :=
  [ "\maketitle"; "\thispagestyle{empty}"; "\tableofcontents"; "\pagebreak" ].

(** The list literal of the second call of [add_title_and_toc], its items
    evaluated in order. *)
Definition title_lines (front_matter : yaml_doc) : outcome (list string) :=
  obind (subscript front_matter "title") (fun title =>
  obind (str_add "\title{" title) (fun l1 =>
  obind (subscript front_matter "id") (fun id =>
  obind (str_add "\large " id) (fun l2 =>
  obind (subscript front_matter "revision") (fun revision =>
  obind (subscript front_matter "manufacturer_name") (fun manufacturer_name =>
  obind (str_add "\author{" manufacturer_name) (fun l4 =>
  Returned [ l1 +:+ " \\ ";
             l2 +:+ ", Rev. " +:+ py_str revision +:+ "}";
             "\date{\today}";
             l4 +:+ "}" ]))))))).

Definition header_after : list string := [ "\thispagestyle{empty}" ].

(** The list literal of the second call of [add_header_and_footer]. *)
Definition header_lines (front_matter : yaml_doc) : outcome (list string) :=
  obind (subscript front_matter "title") (fun title =>
  obind (str_add "\lhead{" title) (fun l4 =>
  obind (subscript front_matter "id") (fun id =>
  obind (str_add "\rhead{" id) (fun l5 =>
  obind (subscript front_matter "revision") (fun revision =>
  Returned [ "\usepackage{fancyhdr}";
             "\usepackage{lastpage}";
             "\pagestyle{fancy}";
             l4 +:+ "}";
             l5 +:+ ", Rev. " +:+ py_str revision +:+ "}";
             "\cfoot{Page \thepage\ of \pageref{LastPage}}" ]))))).

Section Passes.

(** The context argument of every pass, an opaque value. *)
Variable Ctx : Type.

Definition add_title_and_toc (front_matter : yaml_doc) (context : Ctx)
  : M (list string) unit :=
  begin_document_index <- PyList.index begin_document ;;
  _insert_liness (begin_document_index + 1) toc_after ;;;
  new_lines <- eval (title_lines front_matter) ;;
  _insert_liness begin_document_index new_lines.

Definition add_header_and_footer (front_matter : yaml_doc) (context : Ctx)
  : M (list string) unit :=
  begin_document_index <- PyList.index begin_document ;;
  _insert_liness (begin_document_index + 1) header_after ;;;
  new_lines <- eval (header_lines front_matter) ;;
  _insert_liness begin_document_index new_lines.

Definition add_margins (front_matter : yaml_doc) (context : Ctx)
  : M (list string) unit :=
  document_class_index <-
    try_except (PyList.index documentclass_one_line) ValueError
      (fun caught =>
         document_class_index <- PyList.index documentclass_open ;;
         next <- PyList.getitem (document_class_index + 1) ;;
         if String.eqb next documentclass_close
         then ret (document_class_index + 1)
         else raise caught) ;;
  PyList.insert (document_class_index + 1) geometry.

(** The three insertion passes in the order [yaml_gfm_to_tex] runs them. *)
Definition insertion_passes (front_matter : yaml_doc) (context : Ctx)
  : M (list string) unit :=
  add_margins front_matter context ;;;
  add_title_and_toc front_matter context ;;;
  add_header_and_footer front_matter context.

End Passes.


(** ** Front-matter extraction *)

Definition front_matter_delimiter : string := "---" +:+ NL.

(** How [yaml.load] fails: with a [yaml.YAMLError], kept here by its text,
    or with another exception (the safe loader raises the [ValueError] of
    [datetime] on a date such as [2001-13-45]). *)
Inductive yaml_failure :=
  | YAMLError (text : string)
  | OtherException (e : exn).

Section Extraction.

(** [yaml.load(_, Loader=yaml.SafeLoader)]: the parsed document, or the way
    it failed. *)
Variable yaml_load : string -> yaml_failure + yaml_doc.

Definition _extract_yaml_front_matter (raw_string : string)
  : outcome (string * yaml_doc) :=
  let parts := PyStr.split front_matter_delimiter raw_string in
  if bool_decide (length parts < 3)
  then Raised (Exn ValueError "Invalid YAML front matter")
  else
    let front_matter_string := nth 1 parts "" in
    let template_string := PyStr.join front_matter_delimiter (drop 2 parts) in
    match yaml_load front_matter_string with
    | inr front_matter => Returned (template_string, front_matter)
    | inl (YAMLError e) =>
        Raised (Exn ValueError
          ("Invalid YAML front matter; improperly formatted YAML: " +:+ e))
    | inl (OtherException e) => Raised e
    end.

End Extraction.

(** The spec's FormatError is the [ValueError] that extraction raises. *)
Definition FormatError (e : exn) : Prop :=
  exn_cls e = ValueError /\
  PyStr.startswith "Invalid YAML front matter" (exn_arg e) = true.

(** ** posixpath *)

Module PosixPath.

Definition sep : ascii := "/"%char.
Definition extsep : ascii := "."%char.

(** [os.path.split] *)
Definition split (p : string) : string * string :=
  let i := match PyStr.rfind sep p with Some k => S k | None => 0 end in
  let head := PyStr.take i p in
  let tail := PyStr.drop i p in
  let head :=
    if negb (String.eqb head "") && negb (PyStr.all_chars sep head)
    then PyStr.rstrip sep head else head in
  (head, tail).

(** [os.path.join] of two components *)
Definition join (a b : string) : string :=
  if PyStr.startswith "/" b then b
  else if String.eqb a "" || PyStr.endswith "/" a then a +:+ b
  else a +:+ "/" +:+ b.

(** [os.path.splitext]: the extension starts at the last dot, unless
    that dot is before the last separator or only dots lie between the
    separator and it. *)
Definition splitext (p : string) : string * string :=
  match PyStr.rfind extsep p with
  | None => (p, "")
  | Some dotIndex =>
      let filenameIndex := match PyStr.rfind sep p with Some k => S k | None => 0 end in
      if bool_decide (filenameIndex <= dotIndex) &&
         negb (PyStr.all_chars extsep
                 (PyStr.take (dotIndex - filenameIndex) (PyStr.drop filenameIndex p)))
      then (PyStr.take dotIndex p, PyStr.drop dotIndex p)
      else (p, "")
  end.

End PosixPath.

(** ** The image patterns *)

Definition includegraphics_open : string := "\includegraphics{../".

(** [re.compile(r'^\\includegraphics{\.\./(?P<path>INNER)}$').search(line)]
    where INNER starts with [.*]: the line starts with the opening, and
    what follows is the path and a closing brace at the end of the line;
    [$] also matches just before a final newline, and [.] matches no
    newline.  [inner] is the rest of INNER's condition on the path. *)
Definition search_includegraphics (inner : string -> bool) (line : string)
  : option string :=
  if PyStr.startswith includegraphics_open line then
    let rest := PyStr.drop (String.length includegraphics_open) line in
    let n := String.length rest in
    let path :=
      if PyStr.endswith ("}" +:+ NL) rest then Some (PyStr.take (n - 2) rest)
      else if PyStr.endswith "}" rest then Some (PyStr.take (n - 1) rest)
      else None in
    match path with
    | Some p => if negb (PyStr.contains_char nl p) && inner p then Some p else None
    | None => None
    end
  else None.

Definition svg_pattern : string -> option string :=
  search_includegraphics (PyStr.endswith ".svg").

Definition img_pattern : string -> option string :=
  search_includegraphics (fun _ => true).

(** ** The operating system *)

(** What the module asks of the world around it: files, the pandoc
    subprocess, the SVG libraries and the diagnostic channel.  Every
    operation takes the world and returns the world after it. *)
Class OS := {
  world : Type;
  (** [open(name, 'r').read()] *)
  read_text : string -> M world string;
  (** [subprocess.run(argv, input=...)]: return code and standard output *)
  subprocess_run : list string -> string -> M world (Z * string);
  (** the output sink and [output_file.write] *)
  sink : Type;
  file_write : sink -> string -> M world unit;
  (** [os.path.isfile], [os.path.abspath] *)
  isfile : string -> world -> bool;
  abspath : string -> world -> string;
  (** Modelled from the spec: [rdm.util.print_error] is defined outside
      this module; the spec has it emit a diagnostic that is not fatal, so
      it returns and cannot raise. *)
  print_error : string -> world -> world;
  (** [os.makedirs(path, exist_ok=True)] *)
  makedirs : string -> M world unit;
  (** [shutil.copyfile] *)
  copyfile : string -> string -> M world unit;
  (** [svglib.svg2rlg] and [reportlab.graphics.renderPDF.drawToFile] *)
  drawing : Type;
  svg2rlg : string -> M world drawing;
  drawToFile : drawing -> string -> M world unit;
}.

Section Images.

Context `{OS}.
Variable Ctx : Type.

(** The store of [handle_images]: the list it rewrites and the world. *)
Record store := Store { tex_lines : list string; os : world }.

Definition in_world {A} (m : M world A) : M store A :=
  fun st => let '(r, w) := m (os st) in (r, Store (tex_lines st) w).

(** [tex_lines[index] = line], [IndexError] out of range. *)
Definition setitem (index : nat) (line : string) : M store unit :=
  fun st =>
    if bool_decide (index < length (tex_lines st))
    then (Returned tt, Store (<[index := line]> (tex_lines st)) (os st))
    else (Raised (Exn IndexError "list assignment index out of range"), st).

Definition svg_to_pdf (svg_filename pdf_filename : string) : M world unit :=
  drawing <- svg2rlg svg_filename ;;
  drawToFile drawing pdf_filename.

(** The body of the loop of [handle_images]. *)
Definition handle_image (index : nat) (line : string) : M store unit :=
  match img_pattern line with
  | None => ret tt
  | Some input_path =>
      in_world (fun w =>
        if negb (isfile input_path w)
        then (Returned tt,
              print_error ("Image does not exist: " +:+ abspath input_path w) w)
        else (Returned tt, w)) ;;;
      let '(input_directory, input_filename_w_ext) := PosixPath.split input_path in
      let output_directory := PosixPath.join "./tmp/" input_directory in
      in_world (makedirs output_directory) ;;;
      output_path <-
        match svg_pattern line with
        | Some _ =>
            let '(input_filename, _) := PosixPath.splitext input_filename_w_ext in
            let output_path :=
              PosixPath.join output_directory (input_filename +:+ ".pdf") in
            in_world (svg_to_pdf input_path output_path) ;;;
            ret output_path
        | None =>
            let output_path :=
              PosixPath.join output_directory input_filename_w_ext in
            in_world (copyfile input_path output_path) ;;;
            ret output_path
        end ;;
      setitem index ("\includegraphics[width=0.95\textwidth]{" +:+ output_path +:+ "}")
  end.

(** [for index, line in enumerate(tex_lines)]: the loop assigns only at
    the index it is visiting, so the lines still to visit are those the
    list held when the loop started. *)
Fixpoint images_loop (index : nat) (todo : list string) : M store unit :=
  match todo with
  | [] => ret tt
  | line :: todo' => handle_image index line ;;; images_loop (S index) todo'
  end.

Definition handle_images (front_matter : yaml_doc) (context : Ctx) : M store unit :=
  fun st => images_loop 0 (tex_lines st) st.

(** ** The driver *)

Variable yaml_load : string -> yaml_failure + yaml_doc.

Definition _convert_with_pandoc (markdown : string) : M world string :=
  p <- subprocess_run
         [ "pandoc"; "-f"; "gfm"; "-t"; "latex"; "--standalone";
           "-V"; "urlcolor=blue"; "-V"; "linkcolor=black" ] markdown ;;
  if negb (Z.eqb (fst p) 0)
  then raise (Exn ValueError "Pandoc failed to convert markdown to latex")
  else ret (snd p).

(** A pass over the local list [tex_lines] of the driver. *)
Definition on_lines (pass : M (list string) unit) : M store unit :=
  fun st => let '(r, l) := pass (tex_lines st) in (r, Store l (os st)).

(** The driver after [tex_lines] is bound. *)
Definition patch_and_write (front_matter : yaml_doc) (context : Ctx)
    (output_file : sink) : M store unit :=
  on_lines (add_margins Ctx front_matter context) ;;;
  on_lines (add_title_and_toc Ctx front_matter context) ;;;
  on_lines (add_header_and_footer Ctx front_matter context) ;;;
  handle_images front_matter context ;;;
  st <- get ;;
  in_world (file_write output_file (PyStr.join NL (tex_lines st))).

Definition yaml_gfm_to_tex (input_filename : string) (context : Ctx)
    (output_file : sink) : M world unit :=
  input_text <- read_text input_filename ;;
  result <- eval (_extract_yaml_front_matter yaml_load input_text) ;;
  let '(markdown, front_matter) := result in
  tex <- _convert_with_pandoc markdown ;;
  fun w =>
    let '(r, st) :=
      patch_and_write front_matter context output_file
        (Store (PyStr.split NL tex) w) in
    (r, os st).

End Images.

(** ** A small world to run the code in *)

Module Sim.

Inductive event :=
  | Diagnostic (msg : string)
  | MadeDirs (path : string)
  | Copied (src dst : string)
  | Rasterized (src dst : string)
  | Converted (markdown : string)
  | Wrote (text : string).

(** Files by path with their contents, and what happened so far, latest
    first. *)
Record state := State { files : gmap string string; log : list event }.

Definition record (e : event) (w : state) : state :=
  State (files w) (e :: log w).

(** A stand-in for pandoc: the body between the lines of a bare
    standalone article. *)
Definition pandoc (markdown : string) : string :=
  documentclass_one_line +:+ NL +:+ begin_document +:+ NL +:+
  markdown +:+ "\end{document}".

Definition sim_read_text (name : string) : M state string :=
  fun w => match files w !! name with
           | Some text => (Returned text, w)
           | None => (Raised (Exn FileNotFoundError name), w)
           end.

(** [shutil.copyfile] raises [FileNotFoundError] when the source is
    missing. *)
Definition sim_copyfile (src dst : string) : M state unit :=
  fun w => match files w !! src with
           | Some bytes =>
               (Returned tt, record (Copied src dst) (State (<[dst := bytes]> (files w)) (log w)))
           | None => (Raised (Exn FileNotFoundError src), w)
           end.

(** [svg2rlg] gives no drawing for a file it cannot load, and
    [drawToFile] fails on that. *)
Definition sim_svg2rlg (src : string) : M state (option (string * string)) :=
  fun w => (Returned (pair src <$> files w !! src), w).

Definition sim_drawToFile (d : option (string * string)) (dst : string) : M state unit :=
  fun w => match d with
           | Some (src, svg) =>
               (Returned tt,
                record (Rasterized src dst)
                  (State (<[dst := "%PDF " +:+ svg]> (files w)) (log w)))
           | None => (Raised (Exn ExternalError "no drawing"), w)
           end.

#[global] Instance sim_os : OS := {|
  world := state;
  read_text := sim_read_text;
  subprocess_run := fun _ input w => (Returned (0%Z, pandoc input), record (Converted input) w);
  sink := unit;
  file_write := fun _ text w => (Returned tt, record (Wrote text) w);
  isfile := fun path w => bool_decide (is_Some (files w !! path));
  abspath := fun path _ => "/work/" +:+ path;
  print_error := fun msg w => record (Diagnostic msg) w;
  makedirs := fun path w => (Returned tt, record (MadeDirs path) w);
  copyfile := sim_copyfile;
  drawing := option (string * string);
  svg2rlg := sim_svg2rlg;
  drawToFile := sim_drawToFile;
|}.

Definition disk : state :=
  State (<["images/logo.svg" := "<svg/>"]> (<["images/photo.png" := "PNG"]> ∅)) [].

End Sim.

Definition sample_front_matter : yaml_doc :=
  YMapping (<["title" := VStr "Spec"]>
           (<["id" := VStr "DOC-1"]>
           (<["revision" := VInt 2]>
           (<["manufacturer_name" := VStr "Acme"]> ∅)))).

Definition minimal_document : list string :=
  [ documentclass_one_line; begin_document; "Hello"; "\end{document}" ].

(** ** Notions used in the statements *)

(** [l.count(x)]: how many lines of [l] equal [x]. *)
Fixpoint count_lines (x : string) (l : list string) : nat :=
  match l with
  | [] => 0
  | y :: r => (if String.eqb y x then 1 else 0) + count_lines x r
  end.

(** The front matter is a mapping that gives the four keys the passes
    read, with strings where the passes concatenate them. *)
Definition provides (front_matter : yaml_doc)
    (title id : string) (revision : value) (manufacturer_name : string) : Prop :=
  exists m : gmap string value,
    front_matter = YMapping m /\
    m !! "title" = Some (VStr title) /\
    m !! "id" = Some (VStr id) /\
    m !! "revision" = Some revision /\
    m !! "manufacturer_name" = Some (VStr manufacturer_name).

(** The blocks the two passes build from such a front matter. *)
Definition title_block (title id : string) (revision : value)
    (manufacturer_name : string) : list string :=
  [ ("\title{" +:+ title) +:+ " \\ ";
    ("\large " +:+ id) +:+ ", Rev. " +:+ py_str revision +:+ "}";
    "\date{\today}";
    ("\author{" +:+ manufacturer_name) +:+ "}" ].

Definition header_block (title id : string) (revision : value) : list string :=
  [ "\usepackage{fancyhdr}";
    "\usepackage{lastpage}";
    "\pagestyle{fancy}";
    ("\lhead{" +:+ title) +:+ "}";
    ("\rhead{" +:+ id) +:+ ", Rev. " +:+ py_str revision +:+ "}";
    "\cfoot{Page \thepage\ of \pageref{LastPage}}" ].

(** The document class declaration is there in one of the two shapes the
    margins pass looks for: the one-line shape anywhere, or else the first
    opening line directly followed by the closing line. *)
Definition declares_article (lines : list string) : Prop :=
  documentclass_one_line ∈ lines \/
  exists pre post,
    lines = pre ++ documentclass_open :: documentclass_close :: post /\
    (documentclass_open ∉ pre).

(** [s.count(sub)], counted position by position: at how many positions of
    [s] does [sub] start.  The delimiter cannot overlap itself, so for it
    this is the number of its occurrences. *)
Fixpoint str_count (sub s : string) : nat :=
  (if String.prefix sub s then 1 else 0) +
  match s with
  | "" => 0
  | String _ r => str_count sub r
  end.

(** A text with front matter, and a stand-in for the YAML parser that
    knows its block. *)
Definition sample_block : string :=
  "title: Spec" +:+ NL +:+ "id: DOC-1" +:+ NL +:+ "revision: 2" +:+ NL +:+
  "manufacturer_name: Acme" +:+ NL.

Definition sample_text : string :=
  front_matter_delimiter +:+ sample_block +:+ front_matter_delimiter +:+ "# Hello" +:+ NL.

Definition sample_yaml_load (block : string) : yaml_failure + yaml_doc :=
  if String.eqb block sample_block then inr sample_front_matter
  else inl (YAMLError "could not parse").

(** What extraction makes of the block between the first two delimiters
    and of the text after them. *)
Definition extracted (yaml_load : string -> yaml_failure + yaml_doc) (mid rest : string)
  : outcome (string * yaml_doc) :=
  match yaml_load mid with
  | inr front_matter => Returned (rest, front_matter)
  | inl (YAMLError e) =>
      Raised (Exn ValueError
        ("Invalid YAML front matter; improperly formatted YAML: " +:+ e))
  | inl (OtherException e) => Raised e
  end.

(** Where [handle_images] stages the file of an included path: the
    directory under [./tmp/], the PDF made from an SVG, the copy of any
    other file. *)
Definition staging_directory (path : string) : string :=
  PosixPath.join "./tmp/" (fst (PosixPath.split path)).

Definition staged_pdf (path : string) : string :=
  PosixPath.join (staging_directory path)
    (fst (PosixPath.splitext (snd (PosixPath.split path))) +:+ ".pdf").

Definition staged_copy (path : string) : string :=
  PosixPath.join (staging_directory path) (snd (PosixPath.split path)).

(** A front matter without [manufacturer_name]. *)
Definition front_matter_without_author : yaml_doc :=
  YMapping (<["title" := VStr "Spec"]>
           (<["id" := VStr "DOC-1"]>
           (<["revision" := VInt 2]> ∅))).

(** The line [handle_images] writes for a staged file, and how a line
    after the pass relates to the line before it: the same line, or, for a
    line the image pattern matches, a line written for some staged file. *)
Definition rewritten (output_path : string) : string :=
  "\includegraphics[width=0.95\textwidth]{" +:+ output_path +:+ "}".

Definition image_rewrite (old new : string) : Prop :=
  new = old \/ (img_pattern old <> None /\ exists output_path, new = rewritten output_path).

(** Computations over the store of [handle_images] that leave the lines
    alone, and computations that end by writing one rewritten line at
    [index] or raise before that. *)
Definition keeps_lines `{OS} {A} (m : M store A) : Prop :=
  forall st r st1, m st = (r, st1) -> tex_lines st1 = tex_lines st.

Definition writes_at `{OS} (index : nat) (m : M store unit) : Prop :=
  forall st r st1,
    index < length (tex_lines st) -> m st = (r, st1) ->
    (exists e, r = Raised e) /\ tex_lines st1 = tex_lines st \/
    r = Returned tt /\
    exists output_path,
      tex_lines st1 = <[index := rewritten output_path]> (tex_lines st).

(** The command line [_convert_with_pandoc] runs. *)
Definition pandoc_argv : list string :=
  [ "pandoc"; "-f"; "gfm"; "-t"; "latex"; "--standalone";
    "-V"; "urlcolor=blue"; "-V"; "linkcolor=black" ].

(** The small world again, with a pandoc that exits with code 1. *)
Definition failing_pandoc_os : OS := {|
  world := Sim.state;
  read_text := Sim.sim_read_text;
  subprocess_run := fun _ input w => (Returned (1%Z, ""), Sim.record (Sim.Converted input) w);
  sink := unit;
  file_write := fun _ text w => (Returned tt, Sim.record (Sim.Wrote text) w);
  isfile := fun path w => bool_decide (is_Some (Sim.files w !! path));
  abspath := fun path _ => "/work/" +:+ path;
  print_error := fun msg w => Sim.record (Sim.Diagnostic msg) w;
  makedirs := fun path w => (Returned tt, Sim.record (Sim.MadeDirs path) w);
  copyfile := Sim.sim_copyfile;
  drawing := option (string * string);
  svg2rlg := Sim.sim_svg2rlg;
  drawToFile := Sim.sim_drawToFile;
|}.

(** A parser stand-in that fails on an impossible date the way the safe
    loader does, with the [ValueError] of [datetime]. *)
Definition date_block : string := "date: 2001-13-45" +:+ NL.

Definition date_yaml_load (block : string) : yaml_failure + yaml_doc :=
  if String.eqb block date_block
  then inl (OtherException (Exn ValueError "month must be in 1..12"))
  else sample_yaml_load block.

(** The loop body of [handle_images] without the list: what it does to
    the world for one line, and the path it staged, if the line includes an
    image.  [stage_lines] is the loop over the lines: the outcome, the
    lines as the loop leaves them and the world. *)
Definition stage_image `{OS} (line : string) : M world (option string) :=
  match img_pattern line with
  | None => ret None
  | Some input_path =>
      (fun w =>
         if negb (isfile input_path w)
         then (Returned tt,
               print_error ("Image does not exist: " +:+ abspath input_path w) w)
         else (Returned tt, w)) ;;;
      let '(input_directory, input_filename_w_ext) := PosixPath.split input_path in
      let output_directory := PosixPath.join "./tmp/" input_directory in
      makedirs output_directory ;;;
      match svg_pattern line with
      | Some _ =>
          let '(input_filename, _) := PosixPath.splitext input_filename_w_ext in
          let output_path :=
            PosixPath.join output_directory (input_filename +:+ ".pdf") in
          svg_to_pdf input_path output_path ;;;
          ret (Some output_path)
      | None =>
          let output_path :=
            PosixPath.join output_directory input_filename_w_ext in
          copyfile input_path output_path ;;;
          ret (Some output_path)
      end
  end.

Fixpoint stage_lines `{OS} (todo : list string) (w : world)
  : outcome unit * list string * world :=
  match todo with
  | [] => (Returned tt, [], w)
  | line :: todo' =>
      match stage_image line w with
      | (Raised e, w') => (Raised e, line :: todo', w')
      | (Returned staged, w') =>
          let '(r, lines, w'') := stage_lines todo' w' in
          (r, match staged with
              | Some output_path => rewritten output_path
              | None => line
              end :: lines, w'')
      end
  end.

(** A disk with an SVG file whose name is nothing but the extension. *)
Definition dotfile_disk : Sim.state :=
  Sim.State (<["images/.svg" := "<svg/>"]> ∅) [].

(** * Checks on concrete inputs *)

Example split_example :
  PyStr.split ("---" +:+ NL) ("x---" +:+ NL +:+ "a: 1" +:+ NL +:+ "---" +:+ NL +:+ "body")
  = ["x"; "a: 1" +:+ NL; "body"].
Proof. reflexivity. Qed.

Example of_Z_examples : PyStr.of_Z 0 = "0" /\ PyStr.of_Z 12 = "12" /\ PyStr.of_Z (-3) = "-3".
Proof. repeat split; reflexivity. Qed.

Example title_lines_sample :
  title_lines sample_front_matter
  = Returned [ "\title{Spec \\ "; "\large DOC-1, Rev. 2}"; "\date{\today}"; "\author{Acme}" ].
Proof. vm_compute. reflexivity. Qed.

Example insertion_passes_sample :
  insertion_passes unit sample_front_matter tt minimal_document
  = (Returned tt,
     [ documentclass_one_line; geometry;
       "\title{Spec \\ "; "\large DOC-1, Rev. 2}"; "\date{\today}"; "\author{Acme}";
       "\usepackage{fancyhdr}"; "\usepackage{lastpage}"; "\pagestyle{fancy}";
       "\lhead{Spec}"; "\rhead{DOC-1, Rev. 2}";
       "\cfoot{Page \thepage\ of \pageref{LastPage}}";
       begin_document;
       "\thispagestyle{empty}";
       "\maketitle"; "\thispagestyle{empty}"; "\tableofcontents"; "\pagebreak";
       "Hello"; "\end{document}" ]).
Proof. vm_compute. reflexivity. Qed.

Example patterns_sample :
  img_pattern "\includegraphics{../images/photo.png}" = Some "images/photo.png" /\
  svg_pattern "\includegraphics{../images/photo.png}" = None /\
  svg_pattern "\includegraphics{../images/logo.svg}" = Some "images/logo.svg" /\
  img_pattern ("\includegraphics{../a.png}" +:+ NL) = Some "a.png" /\
  img_pattern " \includegraphics{../a.png}" = None /\
  img_pattern "\includegraphics{../a.png} " = None /\
  img_pattern "\includegraphics{..}" = None /\
  img_pattern "\includegraphics{../}" = Some "".
Proof. repeat split; reflexivity. Qed.

Example posixpath_sample :
  PosixPath.split "images/sub/logo.svg" = ("images/sub", "logo.svg") /\
  PosixPath.split "logo.svg" = ("", "logo.svg") /\
  PosixPath.split "/logo.svg" = ("/", "logo.svg") /\
  PosixPath.split "a//b" = ("a", "b") /\
  PosixPath.join "./tmp/" "images" = "./tmp/images" /\
  PosixPath.join "./tmp/images" "logo.pdf" = "./tmp/images/logo.pdf" /\
  PosixPath.join "./tmp/" "/abs" = "/abs" /\
  PosixPath.splitext "logo.svg" = ("logo", ".svg") /\
  PosixPath.splitext "a.b/c" = ("a.b/c", "") /\
  PosixPath.splitext ".svg" = (".svg", "") /\
  PosixPath.splitext "..svg" = ("..svg", "") /\
  PosixPath.splitext "x.tar.gz" = ("x.tar", ".gz").
Proof. repeat split; reflexivity. Qed.

Example handle_images_sample :
  handle_images unit sample_front_matter tt
    (Store [ "text"; "\includegraphics{../images/logo.svg}";
             "\includegraphics{../images/photo.png}" ] Sim.disk)
  = (Returned tt,
     Store [ "text";
             "\includegraphics[width=0.95\textwidth]{./tmp/images/logo.pdf}";
             "\includegraphics[width=0.95\textwidth]{./tmp/images/photo.png}" ]
       (Sim.State
          (<["./tmp/images/photo.png" := "PNG"]>
            (<["./tmp/images/logo.pdf" := "%PDF <svg/>"]> (Sim.files Sim.disk)))
          [ Sim.Copied "images/photo.png" "./tmp/images/photo.png";
            Sim.MadeDirs "./tmp/images";
            Sim.Rasterized "images/logo.svg" "./tmp/images/logo.pdf";
            Sim.MadeDirs "./tmp/images" ])).
Proof. vm_compute. reflexivity. Qed.

(** The spec's end-to-end example, with the stand-ins for the parser and
    for pandoc: the run returns and the text written has the three lines. *)
Example yaml_gfm_to_tex_sample :
  match yaml_gfm_to_tex unit sample_yaml_load "doc.md" tt tt
          (Sim.State (<["doc.md" := sample_text]> ∅) []) with
  | (Returned tt, w) =>
      match Sim.log w with
      | [Sim.Wrote text; Sim.Converted markdown] =>
          markdown = "# Hello" +:+ NL /\
          Forall (fun line => line ∈ PyStr.split NL text)
            [ "\title{Spec \\ "; "\large DOC-1, Rev. 2}"; "\tableofcontents" ]
      | _ => False
      end
  | _ => False
  end.
Proof.
  vm_compute. split; [reflexivity|].
  repeat (apply Forall_cons; split; [repeat constructor|]). apply Forall_nil_2.
Qed.

(** * Lists of lines: searching and inserting *)

Section ListLemmas.

Implicit Types (x y : string) (l pre post : list string).

Lemma find_None x l : PyList.find x l = None <-> x ∉ l.
Proof.
  induction l as [|y r IH]; simpl.
  - split; [intros _; apply not_elem_of_nil | done].
  - destruct (String.eqb_spec y x) as [->|Hne].
    + split; [done | intros Hn; exfalso; apply Hn; left].
    + rewrite fmap_None, IH, not_elem_of_cons. split; [by auto | by intros [_ ?]].
Qed.

Lemma find_app x pre post :
  x ∉ pre -> PyList.find x (pre ++ x :: post) = Some (length pre).
Proof.
  induction pre as [|y r IH]; simpl; intros Hx.
  - by rewrite String.eqb_refl.
  - apply not_elem_of_cons in Hx as [Hne Hr].
    destruct (String.eqb_spec y x) as [->|_]; [done|].
    by rewrite IH.
Qed.

Lemma find_Some x l i :
  PyList.find x l = Some i ->
  exists pre post, l = pre ++ x :: post /\ (x ∉ pre) /\ length pre = i.
Proof.
  revert i. induction l as [|y r IH]; simpl; intros i; [done|].
  destruct (String.eqb_spec y x) as [->|Hne].
  - intros [= <-]. exists (@nil string), r. split_and!; [done | apply not_elem_of_nil | done].
  - destruct (PyList.find x r) as [j|] eqn:Hj; simpl; [|done].
    intros [= <-]. destruct (IH j eq_refl) as (pre & post & -> & Hpre & <-).
    exists (y :: pre), post. split_and!; [done | | done].
    apply not_elem_of_cons; auto.
Qed.

Lemma elem_of_first x l :
  x ∈ l -> exists pre post, l = pre ++ x :: post /\ x ∉ pre.
Proof.
  intros Hin. destruct (PyList.find x l) as [i|] eqn:Hf.
  - destruct (find_Some _ _ _ Hf) as (pre & post & ? & ? & _). eauto.
  - apply find_None in Hf. done.
Qed.

Lemma index_found x pre post :
  x ∉ pre ->
  PyList.index x (pre ++ x :: post) = (Returned (length pre), pre ++ x :: post).
Proof. intros Hx. unfold PyList.index. by rewrite find_app. Qed.

Lemma index_missing x l :
  x ∉ l -> PyList.index x l = (Raised (Exn ValueError x), l).
Proof. intros Hx. unfold PyList.index. by rewrite (proj2 (find_None x l) Hx). Qed.

Lemma insert_at_app x pre post :
  PyList.insert_at (length pre) x (pre ++ post) = pre ++ x :: post.
Proof.
  unfold PyList.insert_at. by rewrite take_app_length, drop_app_length.
Qed.

Lemma insert_at_length i x l : length (PyList.insert_at i x l) = S (length l).
Proof.
  unfold PyList.insert_at.
  rewrite length_app; simpl. rewrite length_take, length_drop. lia.
Qed.

(** Inserting a block line by line, last line first, puts the block at
    the index in its own order, as long as the index is within the list. *)
Lemma insert_lines_run i new l :
  i <= length l ->
  _insert_liness i new l = (Returned tt, take i l ++ new ++ drop i l).
Proof.
  unfold _insert_liness. intros Hi.
  rewrite <- (reverse_involutive new) at 2.
  generalize (reverse new) as r. clear new. intros r.
  revert l Hi. induction r as [|x r IH]; intros l Hi; simpl.
  - by rewrite take_drop.
  - unfold bind at 1, PyList.insert, modify. rewrite IH.
    + f_equal. unfold PyList.insert_at.
      rewrite take_app_le by (rewrite length_take; lia).
      rewrite take_take, Nat.min_id.
      rewrite drop_app_le by (rewrite length_take; lia).
      rewrite (drop_ge (take i l)) by (rewrite length_take; lia).
      rewrite reverse_cons. simpl. by rewrite <- app_assoc.
    + rewrite insert_at_length. lia.
Qed.

Lemma insert_lines_app new pre post :
  _insert_liness (length pre) new (pre ++ post) = (Returned tt, pre ++ new ++ post).
Proof.
  rewrite insert_lines_run by (rewrite length_app; lia).
  by rewrite take_app_length, drop_app_length.
Qed.

End ListLemmas.

Section CountLemmas.

Implicit Types (x y : string) (l pre post : list string).

Lemma count_lines_app x pre post :
  count_lines x (pre ++ post) = count_lines x pre + count_lines x post.
Proof. induction pre as [|y r IH]; simpl; [done | rewrite IH; lia]. Qed.

Lemma count_lines_zero x l : count_lines x l = 0 <-> x ∉ l.
Proof.
  induction l as [|y r IH]; simpl.
  - split; [intros _; apply not_elem_of_nil | done].
  - rewrite not_elem_of_cons. destruct (String.eqb_spec y x) as [->|Hne].
    + split; [done | by intros [? _]].
    + rewrite <- IH. simpl. split; [by auto | by intros [_ ?]].
Qed.

Lemma count_lines_one x l :
  count_lines x l = 1 ->
  exists pre post, l = pre ++ x :: post /\ (x ∉ pre) /\ (x ∉ post).
Proof.
  intros Hc. assert (x ∈ l) as Hin.
  { destruct (decide (x ∈ l)) as [|Hn]; [done|].
    apply count_lines_zero in Hn. lia. }
  destruct (elem_of_first _ _ Hin) as (pre & post & -> & Hpre).
  exists pre, post. split_and!; [done..|].
  rewrite count_lines_app in Hc. simpl in Hc. rewrite String.eqb_refl in Hc.
  apply count_lines_zero. lia.
Qed.

Lemma count_lines_insert_at x y i l :
  y <> x -> count_lines x (PyList.insert_at i y l) = count_lines x l.
Proof.
  intros Hne. unfold PyList.insert_at.
  rewrite <- (take_drop i l) at 3. rewrite !count_lines_app. simpl.
  by destruct (String.eqb_spec y x).
Qed.

End CountLemmas.

(** * The passes around [\begin{document}] *)

Section AnchorPasses.

Variable Ctx : Type.
Implicit Types (fm : yaml_doc) (ctx : Ctx) (pre post lines : list string).

(** Both passes have one shape: find the anchor, insert a fixed block
    after it, evaluate the block that depends on the front matter, insert
    that before the anchor. *)
Lemma around_anchor_run (after : list string) (before : outcome (list string)) pre post :
  begin_document ∉ pre ->
  (begin_document_index <- PyList.index begin_document ;;
   _insert_liness (begin_document_index + 1) after ;;;
   new_lines <- eval before ;;
   _insert_liness begin_document_index new_lines) (pre ++ begin_document :: post)
  = match before with
    | Returned new => (Returned tt, pre ++ new ++ begin_document :: after ++ post)
    | Raised e => (Raised e, pre ++ begin_document :: after ++ post)
    end.
Proof.
  intros Hpre. unfold bind at 1. rewrite index_found by done.
  unfold bind at 1.
  replace (length pre + 1) with (length (pre ++ [begin_document]))
    by (rewrite length_app; simpl; lia).
  rewrite (cons_middle begin_document pre post), app_assoc, insert_lines_app.
  rewrite <- !app_assoc. simpl.
  unfold bind, eval. destruct before as [new|e]; [|done].
  by rewrite insert_lines_app.
Qed.

Lemma around_anchor_missing (after : list string) (before : outcome (list string)) lines :
  begin_document ∉ lines ->
  (begin_document_index <- PyList.index begin_document ;;
   _insert_liness (begin_document_index + 1) after ;;;
   new_lines <- eval before ;;
   _insert_liness begin_document_index new_lines) lines
  = (Raised (Exn ValueError begin_document), lines).
Proof. intros Hl. unfold bind at 1. by rewrite index_missing. Qed.

Lemma title_lines_provided fm title id revision manufacturer_name :
  provides fm title id revision manufacturer_name ->
  title_lines fm = Returned (title_block title id revision manufacturer_name).
Proof.
  intros (m & -> & Ht & Hi & Hr & Hm). unfold title_lines. simpl.
  rewrite Ht; simpl. rewrite Hi; simpl. rewrite Hr; simpl. by rewrite Hm.
Qed.

Lemma header_lines_provided fm title id revision manufacturer_name :
  provides fm title id revision manufacturer_name ->
  header_lines fm = Returned (header_block title id revision).
Proof.
  intros (m & -> & Ht & Hi & Hr & Hm). unfold header_lines. simpl.
  rewrite Ht; simpl. rewrite Hi; simpl. by rewrite Hr.
Qed.

Lemma add_title_and_toc_run fm ctx title id revision manufacturer_name pre post :
  provides fm title id revision manufacturer_name ->
  begin_document ∉ pre ->
  add_title_and_toc Ctx fm ctx (pre ++ begin_document :: post)
  = (Returned tt,
     pre ++ title_block title id revision manufacturer_name
         ++ begin_document :: toc_after ++ post).
Proof.
  intros Hfm Hpre. unfold add_title_and_toc.
  rewrite around_anchor_run by done. by rewrite (title_lines_provided _ _ _ _ _ Hfm).
Qed.

Lemma add_header_and_footer_run fm ctx title id revision manufacturer_name pre post :
  provides fm title id revision manufacturer_name ->
  begin_document ∉ pre ->
  add_header_and_footer Ctx fm ctx (pre ++ begin_document :: post)
  = (Returned tt,
     pre ++ header_block title id revision
         ++ begin_document :: header_after ++ post).
Proof.
  intros Hfm Hpre. unfold add_header_and_footer.
  rewrite around_anchor_run by done. by rewrite (header_lines_provided _ _ _ _ _ Hfm).
Qed.

Lemma begin_document_not_in_title_block title id revision manufacturer_name :
  begin_document ∉ title_block title id revision manufacturer_name.
Proof.
  unfold title_block. rewrite !not_elem_of_cons.
  split_and!; [vm_compute; discriminate.. | apply not_elem_of_nil].
Qed.

End AnchorPasses.

(** * The margins pass *)

Section Margins.

Variable Ctx : Type.
Implicit Types (fm : yaml_doc) (ctx : Ctx) (pre post lines : list string).

Lemma add_margins_one_line fm ctx pre post :
  documentclass_one_line ∉ pre ->
  add_margins Ctx fm ctx (pre ++ documentclass_one_line :: post)
  = (Returned tt, pre ++ documentclass_one_line :: geometry :: post).
Proof.
  intros Hpre. unfold add_margins, bind, try_except.
  rewrite index_found by done.
  unfold PyList.insert, modify. f_equal.
  replace (length pre + 1) with (length (pre ++ [documentclass_one_line]))
    by (rewrite length_app; simpl; lia).
  rewrite (cons_middle documentclass_one_line pre post), app_assoc, insert_at_app.
  by rewrite <- app_assoc.
Qed.

(** Without the one-line shape the handler runs: what it does depends on
    the first opening line and the line after it. *)
Lemma add_margins_handler fm ctx lines :
  documentclass_one_line ∉ lines ->
  add_margins Ctx fm ctx lines
  = match PyList.find documentclass_open lines with
    | None => (Raised (Exn ValueError documentclass_open), lines)
    | Some i =>
        match lines !! (i + 1) with
        | None => (Raised (Exn IndexError "list index out of range"), lines)
        | Some next =>
            if String.eqb next documentclass_close
            then (Returned tt, PyList.insert_at (i + 1 + 1) geometry lines)
            else (Raised (Exn ValueError documentclass_one_line), lines)
        end
    end.
Proof.
  intros Hno. unfold add_margins, bind, try_except.
  rewrite index_missing by done. simpl.
  unfold PyList.index. destruct (PyList.find documentclass_open lines) as [i|]; [|done].
  unfold PyList.getitem. destruct (lines !! (i + 1)) as [next|]; [|done].
  by destruct (String.eqb next documentclass_close).
Qed.

Lemma add_margins_split fm ctx pre post :
  documentclass_one_line ∉ pre ++ documentclass_open :: documentclass_close :: post ->
  documentclass_open ∉ pre ->
  add_margins Ctx fm ctx (pre ++ documentclass_open :: documentclass_close :: post)
  = (Returned tt,
     pre ++ documentclass_open :: documentclass_close :: geometry :: post).
Proof.
  intros Hno Hpre. rewrite add_margins_handler by done.
  rewrite find_app by done.
  replace ((pre ++ documentclass_open :: documentclass_close :: post) !! (length pre + 1))
    with (Some documentclass_close).
  2:{ rewrite lookup_app_r by lia.
      by replace (length pre + 1 - length pre) with 1 by lia. }
  rewrite String.eqb_refl. f_equal.
  replace (length pre + 1 + 1)
    with (length (pre ++ [documentclass_open; documentclass_close]))
    by (rewrite length_app; simpl; lia).
  replace (pre ++ documentclass_open :: documentclass_close :: post)
    with ((pre ++ [documentclass_open; documentclass_close]) ++ post)
    by (by rewrite <- app_assoc).
  rewrite insert_at_app. by rewrite <- app_assoc.
Qed.

Lemma add_margins_neither fm ctx lines :
  documentclass_one_line ∉ lines ->
  (forall pre post, lines <> pre ++ documentclass_open :: documentclass_close :: post) ->
  exists e, add_margins Ctx fm ctx lines = (Raised e, lines).
Proof.
  intros Hno Hsplit. rewrite add_margins_handler by done.
  destruct (PyList.find documentclass_open lines) as [i|] eqn:Hf; [|by eauto].
  destruct (find_Some _ _ _ Hf) as (pre & post & -> & Hpre & <-).
  rewrite lookup_app_r by lia.
  replace (length pre + 1 - length pre) with 1 by lia.
  destruct post as [|next post]; simpl; [by eauto|].
  destruct (String.eqb_spec next documentclass_close) as [->|Hne]; [|by eauto].
  by destruct (Hsplit pre post).
Qed.

(** The pass either inserts its one line somewhere within the list, or
    raises and leaves the list as it was. *)
Lemma add_margins_cases fm ctx lines :
  (exists i, i <= length lines /\
     add_margins Ctx fm ctx lines = (Returned tt, PyList.insert_at i geometry lines)) \/
  (exists e, add_margins Ctx fm ctx lines = (Raised e, lines)).
Proof.
  destruct (decide (documentclass_one_line ∈ lines)) as [Hin|Hno].
  - left. destruct (elem_of_first _ _ Hin) as (pre & post & -> & Hpre).
    exists (length (pre ++ [documentclass_one_line])). split.
    + rewrite !length_app. simpl. lia.
    + rewrite add_margins_one_line by done.
      rewrite (cons_middle documentclass_one_line pre post), app_assoc, insert_at_app.
      by rewrite <- app_assoc.
  - rewrite add_margins_handler by done.
    destruct (PyList.find documentclass_open lines) as [i|] eqn:Hf; [|by eauto].
    destruct (lines !! (i + 1)) as [next|] eqn:Hn; [|by eauto].
    destruct (String.eqb next documentclass_close); [|by eauto].
    left. exists (i + 1 + 1). split; [|done].
    apply lookup_lt_Some in Hn. lia.
Qed.

Lemma add_margins_declared fm ctx lines :
  declares_article lines ->
  exists i, i <= length lines /\
    add_margins Ctx fm ctx lines = (Returned tt, PyList.insert_at i geometry lines).
Proof.
  intros Hd. destruct (add_margins_cases fm ctx lines) as [|[e He]]; [done|].
  exfalso. destruct (decide (documentclass_one_line ∈ lines)) as [Hin|Hno].
  - destruct (elem_of_first _ _ Hin) as (pre & post & -> & Hpre).
    rewrite add_margins_one_line in He by done. discriminate.
  - destruct Hd as [|(pre & post & -> & Hpre)]; [done|].
    rewrite add_margins_split in He by done. discriminate.
Qed.

End Margins.

(** * Properties of the insertion passes *)

Ltac absent :=
  repeat (apply not_elem_of_cons; split; [discriminate|]); apply not_elem_of_nil.

Lemma sample_front_matter_provides :
  provides sample_front_matter "Spec" "DOC-1" (VInt 2) "Acme".
Proof. eexists. split; [reflexivity|]. repeat split; reflexivity. Qed.

Section InsertionProperties.

Variable Ctx : Type.
Implicit Types (fm : yaml_doc) (ctx : Ctx) (pre post lines : list string).

(** The title pass, then the header pass, around the first anchor. *)
Lemma title_then_header_run fm ctx title id revision manufacturer_name pre post :
  provides fm title id revision manufacturer_name ->
  begin_document ∉ pre ->
  (add_title_and_toc Ctx fm ctx ;;; add_header_and_footer Ctx fm ctx)
    (pre ++ begin_document :: post)
  = (Returned tt,
     pre ++ title_block title id revision manufacturer_name
         ++ header_block title id revision
         ++ begin_document :: header_after ++ toc_after ++ post).
Proof.
  intros Hfm Hpre. unfold bind.
  rewrite (add_title_and_toc_run _ _ _ _ _ _ _ _ _ Hfm Hpre).
  rewrite app_assoc.
  rewrite (add_header_and_footer_run _ _ _ _ _ _ _ _ _ Hfm).
  - by rewrite <- !app_assoc.
  - apply not_elem_of_app. split; [done|].
    apply begin_document_not_in_title_block.
Qed.

(** C1, as the code has it: around the only [\begin{document}] line the
    title pass puts 4 lines before and 4 after, the header pass 6 before
    and 1 after, and margins, title and header together make a document
    that declares its class 1 + 8 + 7 = 16 lines longer. *)
Theorem C1_lines_inserted fm ctx title id revision manufacturer_name lines :
  provides fm title id revision manufacturer_name ->
  count_lines begin_document lines = 1 ->
  exists pre post,
    lines = pre ++ begin_document :: post /\
    (exists before after,
       length before = 4 /\ length after = 4 /\
       add_title_and_toc Ctx fm ctx lines
       = (Returned tt, pre ++ before ++ begin_document :: after ++ post)) /\
    (exists before after,
       length before = 6 /\ length after = 1 /\
       add_header_and_footer Ctx fm ctx lines
       = (Returned tt, pre ++ before ++ begin_document :: after ++ post)) /\
    (declares_article lines ->
     exists out,
       insertion_passes Ctx fm ctx lines = (Returned tt, out) /\
       length out = length lines + 16).
Proof.
  intros Hfm Hone.
  destruct (count_lines_one _ _ Hone) as (pre & post & -> & Hpre & Hpost).
  exists pre, post. split_and!; [done| | |].
  - exists (title_block title id revision manufacturer_name), toc_after.
    split_and!; [done..|]. by apply add_title_and_toc_run.
  - exists (header_block title id revision), header_after.
    split_and!; [done..|]. by eapply add_header_and_footer_run.
  - intros Hd.
    destruct (add_margins_declared Ctx fm ctx _ Hd) as (i & Hi & Hm).
    assert (begin_document ∈ PyList.insert_at i geometry (pre ++ begin_document :: post))
      as Hin.
    { destruct (decide (begin_document ∈
                         PyList.insert_at i geometry (pre ++ begin_document :: post)))
        as [|Hn]; [done|].
      apply count_lines_zero in Hn.
      rewrite count_lines_insert_at in Hn by discriminate. lia. }
    destruct (elem_of_first _ _ Hin) as (pre1 & post1 & Heq & Hpre1).
    eexists. split.
    + unfold insertion_passes. unfold bind at 1. rewrite Hm, Heq.
      by apply title_then_header_run.
    + apply (f_equal length) in Heq. rewrite insert_at_length in Heq.
      rewrite ?length_app in *. simpl in *. rewrite ?length_app. simpl. lia.
Qed.

(** C3, as the code has it: a pass that does not find its anchor raises
    and leaves the lines as they were, and the margins pass leaves them as
    they were whenever it raises. *)
Theorem C3_anchor_failure_changes_nothing fm ctx lines :
  (begin_document ∉ lines ->
   add_title_and_toc Ctx fm ctx lines = (Raised (Exn ValueError begin_document), lines) /\
   add_header_and_footer Ctx fm ctx lines = (Raised (Exn ValueError begin_document), lines)) /\
  (forall e out, add_margins Ctx fm ctx lines = (Raised e, out) -> out = lines).
Proof.
  split.
  - intros Hno. split; by apply around_anchor_missing.
  - intros e out He.
    destruct (add_margins_cases Ctx fm ctx lines) as [(i & _ & Hr)|[e' Hr]];
      rewrite Hr in He; by inversion He.
Qed.

(** C5: the margin line goes right after the one-line declaration; right
    after the second line of the split declaration; and with neither
    shape in the document the pass raises and inserts nothing. *)
Theorem C5_add_margins fm ctx lines :
  (documentclass_one_line ∈ lines ->
   exists pre post,
     lines = pre ++ documentclass_one_line :: post /\
     (documentclass_one_line ∉ pre) /\
     add_margins Ctx fm ctx lines
     = (Returned tt, pre ++ documentclass_one_line :: geometry :: post)) /\
  (forall pre post,
     lines = pre ++ documentclass_open :: documentclass_close :: post ->
     documentclass_open ∉ pre ->
     documentclass_one_line ∉ lines ->
     add_margins Ctx fm ctx lines
     = (Returned tt,
        pre ++ documentclass_open :: documentclass_close :: geometry :: post)) /\
  (documentclass_one_line ∉ lines ->
   (forall pre post,
      lines <> pre ++ documentclass_open :: documentclass_close :: post) ->
   exists e, add_margins Ctx fm ctx lines = (Raised e, lines)).
Proof.
  split_and!.
  - intros Hin. destruct (elem_of_first _ _ Hin) as (pre & post & -> & Hpre).
    exists pre, post. split_and!; [done..|]. by apply add_margins_one_line.
  - intros pre post -> Hpre Hno. by apply add_margins_split.
  - apply add_margins_neither.
Qed.

(** C6: with the title pass run before the header pass on a document
    with one [\begin{document}] line, the anchor is followed by the
    header pass's [\thispagestyle{empty}] and then by the four lines of
    the title pass in their order. *)
Theorem C6_order_after_anchor fm ctx title id revision manufacturer_name lines :
  provides fm title id revision manufacturer_name ->
  count_lines begin_document lines = 1 ->
  exists pre post before,
    lines = pre ++ begin_document :: post /\
    (begin_document ∉ pre ++ before) /\
    (add_title_and_toc Ctx fm ctx ;;; add_header_and_footer Ctx fm ctx) lines
    = (Returned tt,
       (pre ++ before) ++
       begin_document ::
       "\thispagestyle{empty}" ::
       "\maketitle" :: "\thispagestyle{empty}" :: "\tableofcontents" :: "\pagebreak" ::
       post).
Proof.
  intros Hfm Hone.
  destruct (count_lines_one _ _ Hone) as (pre & post & -> & Hpre & Hpost).
  exists pre, post,
    (title_block title id revision manufacturer_name ++ header_block title id revision).
  split_and!; [done| |].
  - rewrite !not_elem_of_app. split_and!; [done| |].
    + apply begin_document_not_in_title_block.
    + unfold header_block. rewrite !not_elem_of_cons.
      split_and!; [vm_compute; discriminate.. | apply not_elem_of_nil].
  - rewrite (title_then_header_run _ _ _ _ _ _ _ _ Hfm Hpre).
    by rewrite <- !app_assoc.
Qed.

End InsertionProperties.

(** C9: no pass looks at its context argument; two runs that differ only
    in it end alike, lines and world. *)
Theorem C9_context_ignored `{OS} (Ctx : Type) (fm : yaml_doc) (context1 context2 : Ctx)
    (lines : list string) (st : store) :
  add_margins Ctx fm context1 lines = add_margins Ctx fm context2 lines /\
  add_title_and_toc Ctx fm context1 lines = add_title_and_toc Ctx fm context2 lines /\
  add_header_and_footer Ctx fm context1 lines = add_header_and_footer Ctx fm context2 lines /\
  handle_images Ctx fm context1 st = handle_images Ctx fm context2 st.
Proof. repeat split. Qed.

Lemma C1_lines_inserted_witness :
  exists pre post,
    minimal_document = pre ++ begin_document :: post /\
    (exists before after,
       length before = 4 /\ length after = 4 /\
       add_title_and_toc unit sample_front_matter tt minimal_document
       = (Returned tt, pre ++ before ++ begin_document :: after ++ post)) /\
    (exists before after,
       length before = 6 /\ length after = 1 /\
       add_header_and_footer unit sample_front_matter tt minimal_document
       = (Returned tt, pre ++ before ++ begin_document :: after ++ post)) /\
    (declares_article minimal_document ->
     exists out,
       insertion_passes unit sample_front_matter tt minimal_document = (Returned tt, out) /\
       length out = length minimal_document + 16).
Proof.
  apply (C1_lines_inserted unit sample_front_matter tt "Spec" "DOC-1" (VInt 2) "Acme").
  - apply sample_front_matter_provides.
  - reflexivity.
Defined.

(** C1 as worded fails on the minimal document: the header pass does not
    put 4 lines on each side of the anchor, and the three passes do not
    make the document 9 lines longer. *)
Lemma C1_counterexample :
  count_lines begin_document minimal_document = 1 /\
  declares_article minimal_document /\
  ~ (exists before after,
       length before = 4 /\ length after = 4 /\
       add_header_and_footer unit sample_front_matter tt minimal_document
       = (Returned tt,
          [documentclass_one_line] ++ before ++ begin_document :: after
            ++ ["Hello"; "\end{document}"])) /\
  ~ (exists out,
       insertion_passes unit sample_front_matter tt minimal_document = (Returned tt, out) /\
       length out = length minimal_document + 9).
Proof.
  split_and!.
  - reflexivity.
  - left. unfold minimal_document. apply list_elem_of_here.
  - intros (before & after & Hb & Ha & Hrun).
    set (r := add_header_and_footer unit sample_front_matter tt minimal_document) in Hrun.
    vm_compute in r. subst r. inversion Hrun as [Hl].
    apply (f_equal length) in Hl.
    rewrite ?length_app, ?length_cons, ?length_app in Hl. simpl in Hl. lia.
  - intros (out & Hrun & Hlen).
    rewrite insertion_passes_sample in Hrun. inversion Hrun; subst out.
    vm_compute in Hlen. lia.
Qed.

Lemma C3_anchor_failure_changes_nothing_witness :
  (add_title_and_toc unit sample_front_matter tt ["Hello"]
   = (Raised (Exn ValueError begin_document), ["Hello"]) /\
   add_header_and_footer unit sample_front_matter tt ["Hello"]
   = (Raised (Exn ValueError begin_document), ["Hello"])) /\
  snd (add_margins unit sample_front_matter tt ["Hello"]) = ["Hello"].
Proof.
  destruct (C3_anchor_failure_changes_nothing unit sample_front_matter tt ["Hello"])
    as [Hanchor Hmargins].
  split.
  - apply Hanchor. absent.
  - apply (Hmargins (Exn ValueError documentclass_open)). reflexivity.
Defined.

(** C3 as worded fails: with the anchor there and the [title] key
    missing, the title pass raises [KeyError] after it has put its four
    lines behind the anchor. *)
Lemma C3_counterexample :
  add_title_and_toc unit (YMapping ∅) tt [begin_document]
  = (Raised (Exn KeyError "title"),
     [begin_document; "\maketitle"; "\thispagestyle{empty}"; "\tableofcontents";
      "\pagebreak"]) /\
  ~ (forall e out,
       add_title_and_toc unit (YMapping ∅) tt [begin_document] = (Raised e, out) ->
       out = [begin_document]).
Proof.
  assert (add_title_and_toc unit (YMapping ∅) tt [begin_document]
          = (Raised (Exn KeyError "title"),
             [begin_document; "\maketitle"; "\thispagestyle{empty}"; "\tableofcontents";
              "\pagebreak"])) as Hrun by (vm_compute; reflexivity).
  split; [exact Hrun|].
  intros Hatomic. specialize (Hatomic _ _ Hrun). discriminate.
Qed.

Lemma C5_add_margins_witness :
  (exists pre post,
     minimal_document = pre ++ documentclass_one_line :: post /\
     (documentclass_one_line ∉ pre) /\
     add_margins unit sample_front_matter tt minimal_document
     = (Returned tt, pre ++ documentclass_one_line :: geometry :: post)) /\
  add_margins unit sample_front_matter tt
    ["% preamble"; documentclass_open; documentclass_close; begin_document]
  = (Returned tt,
     ["% preamble"; documentclass_open; documentclass_close; geometry; begin_document]) /\
  (exists e, add_margins unit sample_front_matter tt ["Hello"] = (Raised e, ["Hello"])).
Proof.
  split_and!.
  - apply (C5_add_margins unit sample_front_matter tt minimal_document).
    apply list_elem_of_here.
  - apply (proj1 (proj2 (C5_add_margins unit sample_front_matter tt
             ["% preamble"; documentclass_open; documentclass_close; begin_document]))
             ["% preamble"] [begin_document]).
    + reflexivity.
    + absent.
    + absent.
  - apply (C5_add_margins unit sample_front_matter tt ["Hello"]).
    + absent.
    + intros [|? [|? ?]] post; discriminate.
Defined.

Lemma C6_order_after_anchor_witness :
  exists pre post before,
    minimal_document = pre ++ begin_document :: post /\
    (begin_document ∉ pre ++ before) /\
    (add_title_and_toc unit sample_front_matter tt ;;;
     add_header_and_footer unit sample_front_matter tt) minimal_document
    = (Returned tt,
       (pre ++ before) ++
       begin_document ::
       "\thispagestyle{empty}" ::
       "\maketitle" :: "\thispagestyle{empty}" :: "\tableofcontents" :: "\pagebreak" ::
       post).
Proof.
  apply (C6_order_after_anchor unit sample_front_matter tt "Spec" "DOC-1" (VInt 2) "Acme").
  - apply sample_front_matter_provides.
  - reflexivity.
Defined.

(** * Splitting at the front-matter delimiter *)

Section Delimiter.

Abbreviation d := front_matter_delimiter.
Implicit Types (s t x pre mid rest : string).

Lemma append_String (c : ascii) s t : String c s +:+ t = String c (s +:+ t).
Proof. reflexivity. Qed.

Lemma append_empty t : "" +:+ t = t.
Proof. reflexivity. Qed.

Lemma append_assoc s t x : (s +:+ t) +:+ x = s +:+ t +:+ x.
Proof. induction s as [|c s IH]; [done|]. by rewrite !append_String, IH. Qed.

Lemma length_append s t : String.length (s +:+ t) = String.length s + String.length t.
Proof. induction s as [|c s IH]; [done|]. rewrite append_String. simpl. by rewrite IH. Qed.

Lemma delimiter_append t :
  d +:+ t = String "-" (String "-" (String "-" (String nl t))).
Proof. reflexivity. Qed.

Lemma prefix_append p t : String.prefix p (p +:+ t) = true.
Proof.
  induction p as [|c p IH]; [by destruct t|].
  rewrite append_String. simpl. by destruct (ascii_dec c c).
Qed.

Lemma prefix_split p s : String.prefix p s = true -> exists t, s = p +:+ t.
Proof.
  revert s. induction p as [|c p IH]; intros s Hp; [by exists s|].
  destruct s as [|a s]; [done|]. simpl in Hp.
  destruct (ascii_dec c a) as [->|]; [|done].
  destruct (IH s Hp) as [t ->]. by exists t.
Qed.

Lemma prefix_weaken p x y : String.prefix p x = true -> String.prefix p (x +:+ y) = true.
Proof.
  intros [t ->]%prefix_split. rewrite append_assoc. apply prefix_append.
Qed.

(** The delimiter does not start inside the text before a delimiter:
    its newline would have to fall on one of the dashes. *)
Lemma prefix_String (a b : ascii) p s :
  String.prefix (String a p) (String b s)
  = if ascii_dec a b then String.prefix p s else false.
Proof. reflexivity. Qed.

Lemma prefix_empty s : String.prefix "" s = true.
Proof. by destruct s. Qed.

Lemma prefix_straddle c x t :
  String.prefix d (String c x +:+ d +:+ t) = true -> String.prefix d (String c x) = true.
Proof.
  rewrite delimiter_append. unfold front_matter_delimiter, NL.
  destruct x as [|a1 [|a2 [|a3 x]]];
    rewrite ?append_String, ?append_empty, ?prefix_String, ?prefix_empty;
    repeat (match goal with
            | |- context [ascii_dec ?a ?b] =>
                destruct (ascii_dec a b) as [?|?]; try done
            end).
Qed.

Lemma split_go_skip k x s :
  String.length x = k -> PyStr.split_go d k (x +:+ s) = PyStr.split_go d 0 s.
Proof.
  revert x. induction k as [|k IH]; intros [|c x] Hx; try done.
  rewrite append_String. simpl. apply IH. by injection Hx.
Qed.

Lemma split_go_here sep (c : ascii) r :
  PyStr.split_go sep 0 (String c r)
  = if String.prefix sep (String c r)
    then ("", let '(p, ps) := PyStr.split_go sep (String.length sep - 1) r in p :: ps)
    else let '(p, ps) := PyStr.split_go sep 0 r in (String c p, ps).
Proof. reflexivity. Qed.

Lemma split_delimiter t : PyStr.split d (d +:+ t) = "" :: PyStr.split d t.
Proof.
  unfold PyStr.split.
  pose proof (prefix_append d t) as Hp. rewrite delimiter_append in *.
  rewrite split_go_here, Hp.
  change (String "-" (String "-" (String nl t))) with (("--" +:+ NL) +:+ t).
  by rewrite (split_go_skip (String.length d - 1) ("--" +:+ NL) t eq_refl).
Qed.

Lemma split_char c s :
  String.prefix d (String c s) = false ->
  PyStr.split d (String c s)
  = match PyStr.split d s with
    | p :: ps => String c p :: ps
    | [] => []
    end.
Proof.
  intros Hp. unfold PyStr.split. rewrite split_go_here, Hp.
  by destruct (PyStr.split_go d 0 s).
Qed.

Lemma str_count_delimiter t : str_count d (d +:+ t) = 1 + str_count d t.
Proof.
  rewrite delimiter_append. cbn [str_count].
  unfold front_matter_delimiter, NL, nl. rewrite ?append_String, ?append_empty.
  simpl String.prefix. destruct t; reflexivity.
Qed.

Lemma str_count_char c s :
  String.prefix d (String c s) = false -> str_count d (String c s) = str_count d s.
Proof. intros Hp. cbn [str_count]. by rewrite Hp. Qed.

Lemma str_count_zero_prefix s : str_count d s = 0 -> String.prefix d s = false.
Proof.
  intros Hc. destruct (String.prefix d s) eqn:Hp; [|done].
  destruct s; cbn [str_count] in Hc; rewrite Hp in Hc; discriminate.
Qed.

(** The part before the first delimiter. *)
Lemma split_first pre t :
  str_count d pre = 0 -> PyStr.split d (pre +:+ d +:+ t) = pre :: PyStr.split d t.
Proof.
  induction pre as [|c pre IH]; intros Hc.
  - apply split_delimiter.
  - assert (String.prefix d (String c pre) = false) as Hp
      by (by apply str_count_zero_prefix).
    rewrite str_count_char in Hc by done.
    rewrite append_String, split_char.
    + by rewrite IH.
    + rewrite <- append_String.
      destruct (String.prefix d (String c pre +:+ d +:+ t)) eqn:Hs; [|done].
      apply prefix_straddle in Hs. congruence.
Qed.

Lemma split_none s : str_count d s = 0 -> PyStr.split d s = [s].
Proof.
  induction s as [|c s IH]; intros Hc; [done|].
  assert (String.prefix d (String c s) = false) as Hp by (by apply str_count_zero_prefix).
  rewrite str_count_char in Hc by done.
  rewrite split_char by done. by rewrite IH.
Qed.

(** A text with a delimiter in it, cut at the first one. *)
Lemma first_delimiter s :
  1 <= str_count d s ->
  exists pre t,
    s = pre +:+ d +:+ t /\ str_count d pre = 0 /\ str_count d s = 1 + str_count d t.
Proof.
  induction s as [|c s IH]; intros Hc; [simpl in Hc; lia|].
  destruct (String.prefix d (String c s)) eqn:Hp.
  - destruct (prefix_split _ _ Hp) as [t Ht]. exists "", t.
    rewrite Ht. split_and!; [done..|]. apply str_count_delimiter.
  - rewrite str_count_char in Hc by done.
    destruct (IH Hc) as (pre & t & -> & Hpre & Hcount).
    exists (String c pre), t. split_and!; [done| |].
    + rewrite str_count_char; [done|].
      destruct (String.prefix d (String c pre)) eqn:Hq; [|done].
      apply (prefix_weaken _ _ (d +:+ t)) in Hq.
      rewrite append_String in Hq. congruence.
    + by rewrite str_count_char.
Qed.

Lemma split_not_nil s : PyStr.split d s <> [].
Proof. unfold PyStr.split. by destruct (PyStr.split_go d 0 s). Qed.

Lemma length_split s : length (PyStr.split d s) = S (str_count d s).
Proof.
  remember (String.length s) as n eqn:Hn. revert s Hn.
  induction n as [n IH] using lt_wf_ind. intros s ->.
  destruct (str_count d s) as [|k] eqn:Hc.
  - by rewrite split_none.
  - destruct (first_delimiter s) as (pre & t & -> & Hpre & Hcount); [lia|].
    rewrite split_first by done. simpl. f_equal.
    rewrite (IH (String.length t)); [lia| |done].
    rewrite !length_append. simpl. lia.
Qed.

(** Joining the parts with the delimiter gives the text back. *)
Lemma join_split s : PyStr.join d (PyStr.split d s) = s.
Proof.
  remember (String.length s) as n eqn:Hn. revert s Hn.
  induction n as [n IH] using lt_wf_ind. intros s ->.
  destruct (str_count d s) as [|k] eqn:Hc.
  - by rewrite split_none.
  - destruct (first_delimiter s) as (pre & t & -> & Hpre & Hcount); [lia|].
    rewrite split_first by done.
    assert (PyStr.join d (PyStr.split d t) = t) as IHt.
    { apply (IH (String.length t)); [|done]. rewrite !length_append. simpl. lia. }
    destruct (PyStr.split d t) as [|p ps] eqn:Hs; [by destruct (split_not_nil t)|].
    unfold PyStr.join in *. cbn [String.concat] in *. by rewrite IHt.
Qed.

End Delimiter.

(** * Front-matter extraction *)

Section ExtractionProperties.

Variable yaml_load : string -> yaml_failure + yaml_doc.
Abbreviation d := front_matter_delimiter.
Implicit Types (s t pre mid rest : string).

Lemma extract_two_delimiters pre mid rest :
  str_count d pre = 0 -> str_count d mid = 0 ->
  _extract_yaml_front_matter yaml_load (pre +:+ d +:+ mid +:+ d +:+ rest)
  = extracted yaml_load mid rest.
Proof.
  intros Hpre Hmid. unfold _extract_yaml_front_matter, extracted.
  rewrite !split_first by done.
  destruct (PyStr.split d rest) as [|p ps] eqn:Hs; [by destruct (split_not_nil rest)|].
  rewrite bool_decide_eq_false_2 by (simpl; lia).
  cbn [nth drop]. by rewrite <- Hs, join_split.
Qed.

(** C4: a text with at least two delimiters is a preamble, a block and a
    body around the first two; extraction returns the body as it stands,
    later delimiters included, with what the YAML parser makes of the
    block (and raises the parser's error as a [ValueError] when the block
    does not parse). *)
Theorem C4_extraction_returns_body_and_mapping s :
  2 <= str_count d s ->
  exists pre mid rest,
    s = pre +:+ d +:+ mid +:+ d +:+ rest /\
    str_count d pre = 0 /\ str_count d mid = 0 /\
    _extract_yaml_front_matter yaml_load s = extracted yaml_load mid rest /\
    forall front_matter,
      yaml_load mid = inr front_matter ->
      _extract_yaml_front_matter yaml_load s = Returned (rest, front_matter).
Proof.
  intros Hc.
  destruct (first_delimiter s) as (pre & t & -> & Hpre & Hcount); [lia|].
  destruct (first_delimiter t) as (mid & rest & -> & Hmid & _); [lia|].
  exists pre, mid, rest. split_and!; [done..| |].
  - by apply extract_two_delimiters.
  - intros fm Hfm. rewrite extract_two_delimiters by done.
    unfold extracted. by rewrite Hfm.
Qed.

Lemma extract_too_few s :
  str_count d s <= 1 ->
  _extract_yaml_front_matter yaml_load s
  = Raised (Exn ValueError "Invalid YAML front matter").
Proof.
  intros Hc. unfold _extract_yaml_front_matter.
  rewrite bool_decide_eq_true_2; [done|]. rewrite length_split. lia.
Qed.

(** C10: what stands before the first delimiter is dropped unread: the
    result is that of the text without it, so with a second delimiter
    and a block that parses extraction returns, whatever the preamble. *)
Theorem C10_preamble_discarded pre t :
  str_count d pre = 0 ->
  _extract_yaml_front_matter yaml_load (pre +:+ d +:+ t)
  = _extract_yaml_front_matter yaml_load (d +:+ t) /\
  forall mid rest front_matter,
    t = mid +:+ d +:+ rest -> str_count d mid = 0 ->
    yaml_load mid = inr front_matter ->
    _extract_yaml_front_matter yaml_load (pre +:+ d +:+ t)
    = Returned (rest, front_matter).
Proof.
  intros Hpre. split.
  - unfold _extract_yaml_front_matter.
    rewrite split_first by done. rewrite split_delimiter. reflexivity.
  - intros mid rest fm -> Hmid Hfm.
    rewrite extract_two_delimiters by done. unfold extracted. by rewrite Hfm.
Qed.

End ExtractionProperties.

Lemma delimiter_count_le_dashes (s : string) :
  str_count front_matter_delimiter s <= str_count "---" s.
Proof.
  induction s as [|c s IH]; [done|]. cbn [str_count].
  destruct (String.prefix front_matter_delimiter (String c s)) eqn:Hp; [|lia].
  destruct (prefix_split _ _ Hp) as [t Ht]. rewrite Ht.
  change (front_matter_delimiter +:+ t) with ("---" +:+ NL +:+ t).
  rewrite prefix_append. lia.
Qed.

(** C8: a text with no delimiter or just one makes extraction raise the
    [ValueError] the spec calls FormatError, and the driver raises it with
    the world as reading the input left it: pandoc has not run and nothing
    was written. *)
Theorem C8_too_few_delimiters `{OS} (Ctx : Type)
    (yaml_load : string -> yaml_failure + yaml_doc) (s : string) :
  str_count front_matter_delimiter s <= 1 ->
  _extract_yaml_front_matter yaml_load s
  = Raised (Exn ValueError "Invalid YAML front matter") /\
  FormatError (Exn ValueError "Invalid YAML front matter") /\
  forall (input_filename : string) (context : Ctx) (output_file : sink) (w w' : world),
    read_text input_filename w = (Returned s, w') ->
    yaml_gfm_to_tex Ctx yaml_load input_filename context output_file w
    = (Raised (Exn ValueError "Invalid YAML front matter"), w').
Proof.
  intros Hc. split_and!.
  - by apply extract_too_few.
  - by split.
  - intros input_filename context output_file w w' Hread.
    unfold yaml_gfm_to_tex, bind. rewrite Hread.
    unfold eval. by rewrite extract_too_few.
Qed.

Lemma C4_extraction_returns_body_and_mapping_witness :
  exists pre mid rest,
    sample_text = pre +:+ front_matter_delimiter +:+ mid +:+ front_matter_delimiter +:+ rest /\
    str_count front_matter_delimiter pre = 0 /\
    str_count front_matter_delimiter mid = 0 /\
    _extract_yaml_front_matter sample_yaml_load sample_text
    = extracted sample_yaml_load mid rest /\
    forall front_matter,
      sample_yaml_load mid = inr front_matter ->
      _extract_yaml_front_matter sample_yaml_load sample_text
      = Returned (rest, front_matter).
Proof.
  apply (C4_extraction_returns_body_and_mapping sample_yaml_load sample_text).
  vm_compute. lia.
Defined.

Lemma C10_preamble_discarded_witness :
  _extract_yaml_front_matter sample_yaml_load ("notes" +:+ NL +:+ sample_text)
  = _extract_yaml_front_matter sample_yaml_load sample_text /\
  _extract_yaml_front_matter sample_yaml_load ("notes" +:+ NL +:+ sample_text)
  = Returned ("# Hello" +:+ NL, sample_front_matter).
Proof.
  destruct (C10_preamble_discarded sample_yaml_load ("notes" +:+ NL)
              (sample_block +:+ front_matter_delimiter +:+ "# Hello" +:+ NL) eq_refl)
    as [Hsame Hreturns].
  split.
  - exact Hsame.
  - apply (Hreturns sample_block ("# Hello" +:+ NL) sample_front_matter);
      reflexivity.
Defined.

Lemma C8_too_few_delimiters_witness :
  let text := "---" +:+ NL +:+ "title: Spec" +:+ NL +:+ "# Hello" in
  let w := Sim.State (<["doc.md" := text]> ∅) [] in
  _extract_yaml_front_matter sample_yaml_load text
  = Raised (Exn ValueError "Invalid YAML front matter") /\
  yaml_gfm_to_tex unit sample_yaml_load "doc.md" tt tt w
  = (Raised (Exn ValueError "Invalid YAML front matter"), w).
Proof.
  intros text w.
  destruct (C8_too_few_delimiters unit sample_yaml_load text) as (He & _ & Hd).
  - vm_compute. lia.
  - split; [exact He|]. apply Hd. reflexivity.
Defined.

(** * Strings and paths *)

Section StringLemmas.

Implicit Types (s t x suf : string) (c : ascii).

Lemma take_drop_string n s : PyStr.take n s +:+ PyStr.drop n s = s.
Proof.
  revert s. induction n as [|n IH]; intros [|a s]; try done.
  simpl. by rewrite append_String, IH.
Qed.

Lemma drop_append_length x s : PyStr.drop (String.length x) (x +:+ s) = s.
Proof. induction x as [|a x IH]; [by destruct s|]. by rewrite append_String. Qed.

Lemma take_append_length x s : PyStr.take (String.length x) (x +:+ s) = x.
Proof.
  induction x as [|a x IH]; [by destruct s|].
  rewrite append_String. simpl. by rewrite IH.
Qed.

Lemma drop_append_le i x s :
  i <= String.length x -> PyStr.drop i (x +:+ s) = PyStr.drop i x +:+ s.
Proof.
  revert x. induction i as [|i IH]; intros [|a x] Hi; simpl in Hi; try done; try lia.
  rewrite append_String. simpl. apply IH. lia.
Qed.

Lemma length_take_string n s :
  String.length (PyStr.take n s) = Nat.min n (String.length s).
Proof.
  revert s. induction n as [|n IH]; intros [|a s]; try done.
  simpl. by rewrite IH.
Qed.

Lemma endswith_append suf x : PyStr.endswith suf (x +:+ suf) = true.
Proof.
  unfold PyStr.endswith. rewrite length_append.
  rewrite bool_decide_eq_true_2 by lia.
  replace (String.length x + String.length suf - String.length suf)
    with (String.length x) by lia.
  by rewrite drop_append_length, String.eqb_refl.
Qed.

Lemma endswith_split suf s : PyStr.endswith suf s = true -> exists x, s = x +:+ suf.
Proof.
  unfold PyStr.endswith. intros [_ Heq%String.eqb_eq]%andb_prop.
  exists (PyStr.take (String.length s - String.length suf) s).
  rewrite <- (take_drop_string (String.length s - String.length suf) s) at 1.
  by rewrite Heq.
Qed.

Lemma rfind_lt c s k : PyStr.rfind c s = Some k -> k < String.length s.
Proof.
  revert k. induction s as [|a s IH]; intros k; simpl; [done|].
  destruct (PyStr.rfind c s) as [j|].
  - intros [= <-]. specialize (IH j eq_refl). lia.
  - destruct (Ascii.eqb a c); [|done]. intros [= <-]. lia.
Qed.

Lemma rfind_append c s t :
  PyStr.rfind c (s +:+ t)
  = match PyStr.rfind c t with
    | Some j => Some (String.length s + j)
    | None => PyStr.rfind c s
    end.
Proof.
  induction s as [|a s IH]; [rewrite append_empty; by destruct (PyStr.rfind c t)|].
  rewrite append_String. simpl. rewrite IH.
  by destruct (PyStr.rfind c t).
Qed.

Lemma rfind_drop_after c s k :
  PyStr.rfind c s = Some k -> PyStr.rfind c (PyStr.drop (S k) s) = None.
Proof.
  revert k. induction s as [|a s IH]; intros k; simpl; [done|].
  destruct (PyStr.rfind c s) as [j|] eqn:Hj.
  - intros [= <-]. by apply IH.
  - destruct (Ascii.eqb a c); [|done]. intros [= <-]. by destruct s.
Qed.

(** The file name [os.path.split] gives has no separator in it. *)
Lemma split_tail_no_sep p :
  PyStr.rfind PosixPath.sep (snd (PosixPath.split p)) = None.
Proof.
  unfold PosixPath.split. simpl.
  destruct (PyStr.rfind PosixPath.sep p) as [k|] eqn:Hk.
  - by apply rfind_drop_after.
  - by destruct p.
Qed.

(** The file name of a path that ends in [.svg] ends in [.svg]. *)
Lemma split_tail_svg p :
  PyStr.endswith ".svg" p = true ->
  exists stem, snd (PosixPath.split p) = stem +:+ ".svg".
Proof.
  intros [x ->]%endswith_split. unfold PosixPath.split. simpl.
  rewrite rfind_append.
  change (PyStr.rfind PosixPath.sep ".svg") with (@None nat).
  destruct (PyStr.rfind PosixPath.sep x) as [k|] eqn:Hk.
  - exists (PyStr.drop (S k) x). apply drop_append_le.
    apply rfind_lt in Hk. lia.
  - exists x. by destruct x.
Qed.

(** [os.path.splitext] on a file name [stem.svg]: the stem is the root
    unless it is made of dots only (or empty), and then there is no
    extension to take off. *)
Lemma splitext_svg stem :
  PyStr.rfind PosixPath.sep (stem +:+ ".svg") = None ->
  fst (PosixPath.splitext (stem +:+ ".svg"))
  = if PyStr.all_chars PosixPath.extsep stem then stem +:+ ".svg" else stem.
Proof.
  intros Hsep. unfold PosixPath.splitext. rewrite Hsep.
  rewrite rfind_append.
  change (PyStr.rfind PosixPath.extsep ".svg") with (Some 0). cbv beta iota zeta.
  rewrite bool_decide_eq_true_2 by lia.
  replace (String.length stem + 0 - 0) with (String.length stem) by lia.
  replace (String.length stem + 0) with (String.length stem) by lia.
  change (PyStr.drop 0 (stem +:+ ".svg")) with (stem +:+ ".svg").
  rewrite take_append_length.
  by destruct (PyStr.all_chars PosixPath.extsep stem).
Qed.

Lemma join_keeps_name a b : exists x, PosixPath.join a b = x +:+ b.
Proof.
  unfold PosixPath.join.
  destruct (PyStr.startswith "/" b); [by exists ""|].
  destruct (String.eqb a "" || PyStr.endswith "/" a); [by exists a|].
  exists (a +:+ "/"). by rewrite append_assoc.
Qed.

Lemma join_endswith a b suf : PyStr.endswith suf (PosixPath.join a (b +:+ suf)) = true.
Proof.
  destruct (join_keeps_name a (b +:+ suf)) as [x ->].
  rewrite <- append_assoc. apply endswith_append.
Qed.

End StringLemmas.

(** * The image patterns *)

(** Both patterns frame the path alike; the SVG one asks in addition that
    the path end in [.svg]. *)
Lemma search_includegraphics_inner (inner : string -> bool) (line : string) :
  search_includegraphics inner line
  = match img_pattern line with
    | Some p => if inner p then Some p else None
    | None => None
    end.
Proof.
  unfold img_pattern, search_includegraphics.
  destruct (PyStr.startswith includegraphics_open line); [|done].
  match goal with |- context [match ?o with Some _ => _ | None => _ end] =>
    destruct o as [p|] end; [|done].
  by destruct (PyStr.contains_char nl p).
Qed.

Lemma svg_pattern_Some (line path : string) :
  svg_pattern line = Some path <->
  img_pattern line = Some path /\ PyStr.endswith ".svg" path = true.
Proof.
  unfold svg_pattern. rewrite search_includegraphics_inner.
  destruct (img_pattern line) as [p|]; [|by split; [|intros []]].
  destruct (PyStr.endswith ".svg" p) eqn:Hp.
  - split; [by intros [= <-] | by intros [[= <-] _]].
  - split; [done | intros [[= <-] ?]; congruence].
Qed.

Lemma svg_pattern_None (line path : string) :
  img_pattern line = Some path -> PyStr.endswith ".svg" path = false ->
  svg_pattern line = None.
Proof.
  intros Himg Hext. destruct (svg_pattern line) as [p|] eqn:Hs; [|done].
  apply svg_pattern_Some in Hs as [Hp Hsvg]. congruence.
Qed.

(** * The image pass *)

Section ImageProperties.

Context `{OS}.
Variable Ctx : Type.
Implicit Types (line path : string) (st : store) (todo : list string).

(** The loop body on a line that includes an image whose source is
    there, once the staging directory is made. *)
Lemma handle_image_staged index line path st w1 :
  img_pattern line = Some path ->
  isfile path (os st) = true ->
  makedirs (PosixPath.join "./tmp/" (fst (PosixPath.split path))) (os st)
  = (Returned tt, w1) ->
  handle_image index line st
  = (output_path <-
       match svg_pattern line with
       | Some _ =>
           let output_path :=
             PosixPath.join (PosixPath.join "./tmp/" (fst (PosixPath.split path)))
               (fst (PosixPath.splitext (snd (PosixPath.split path))) +:+ ".pdf") in
           in_world (svg_to_pdf path output_path) ;;; ret output_path
       | None =>
           let output_path :=
             PosixPath.join (PosixPath.join "./tmp/" (fst (PosixPath.split path)))
               (snd (PosixPath.split path)) in
           in_world (copyfile path output_path) ;;; ret output_path
       end ;;
     setitem index ("\includegraphics[width=0.95\textwidth]{" +:+ output_path +:+ "}"))
      (Store (tex_lines st) w1).
Proof.
  intros Himg Hfile Hdirs. unfold handle_image. rewrite Himg.
  destruct (PosixPath.split path) as [input_directory input_filename_w_ext].
  simpl in *. unfold bind at 1. unfold in_world at 1. rewrite Hfile. simpl.
  unfold bind at 1. unfold in_world at 1. simpl. rewrite Hdirs.
  destruct (svg_pattern line); [|done].
  by destruct (PosixPath.splitext input_filename_w_ext).
Qed.

End ImageProperties.

Section ImageClaims.

Context `{OS}.
Variable Ctx : Type.
Implicit Types (line path : string) (st : store) (todo : list string).

Lemma setitem_run index new st :
  index < length (tex_lines st) ->
  setitem index new st
  = (Returned tt, Store (<[index := new]> (tex_lines st)) (os st)).
Proof. intros Hi. unfold setitem. by rewrite bool_decide_eq_true_2. Qed.

(** The loop body is [stage_image] on the world, and one assignment to
    the line at the index when a file was staged. *)
Lemma handle_image_stage index line st :
  handle_image index line st
  = match stage_image line (os st) with
    | (Returned (Some output_path), w) =>
        setitem index (rewritten output_path) (Store (tex_lines st) w)
    | (Returned None, w) => (Returned tt, Store (tex_lines st) w)
    | (Raised e, w) => (Raised e, Store (tex_lines st) w)
    end.
Proof.
  unfold handle_image, stage_image, rewritten.
  destruct (img_pattern line) as [input_path|]; [|by destruct st].
  destruct (PosixPath.split input_path) as [input_directory input_filename_w_ext].
  unfold bind, in_world, ret. cbn [os tex_lines].
  destruct (negb (isfile input_path (os st))); cbn [os tex_lines].
  all: match goal with
       | |- context [makedirs ?p ?w0] => destruct (makedirs p w0) as [[[]|e] w1]
       end; try done.
  all: destruct (svg_pattern line);
    [destruct (PosixPath.splitext input_filename_w_ext) as [input_filename ext]|];
    cbn [os tex_lines].
  all: match goal with
       | |- context [svg_to_pdf ?x ?y ?w0] => destruct (svg_to_pdf x y w0) as [[[]|e] w2]
       | |- context [copyfile ?x ?y ?w0] => destruct (copyfile x y w0) as [[[]|e] w2]
       end; done.
Qed.

Lemma images_loop_stage todo : forall before rest w,
  images_loop (length before) todo (Store (before ++ todo ++ rest) w)
  = let '(r, lines, w') := stage_lines todo w in
    (r, Store (before ++ lines ++ rest) w').
Proof.
  induction todo as [|line todo IH]; intros before rest w; [done|].
  cbn [images_loop stage_lines]. unfold bind at 1.
  rewrite handle_image_stage. cbn [os tex_lines].
  destruct (stage_image line w) as [[[output_path|]|e] w1]; [| |done].
  - rewrite setitem_run by (cbn [tex_lines]; rewrite length_app; simpl; lia).
    cbn [tex_lines os].
    rewrite insert_app_r_alt, Nat.sub_diag by lia. cbn [insert list_insert app].
    specialize (IH (before ++ [rewritten output_path]) rest w1).
    rewrite length_app, Nat.add_1_r, <- app_assoc in IH. cbn [app] in IH.
    rewrite IH. destruct (stage_lines todo w1) as [[r lines] w2].
    by rewrite <- app_assoc.
  - specialize (IH (before ++ [line]) rest w1).
    rewrite length_app, Nat.add_1_r, <- app_assoc in IH. cbn [app] in IH.
    cbn [app]. rewrite IH. destruct (stage_lines todo w1) as [[r lines] w2].
    by rewrite <- app_assoc.
Qed.

Lemma handle_images_stage fm (ctx : Ctx) lines w :
  handle_images Ctx fm ctx (Store lines w)
  = let '(r, lines', w') := stage_lines lines w in (r, Store lines' w').
Proof.
  unfold handle_images. cbn [tex_lines].
  pose proof (images_loop_stage lines [] [] w) as Hloop.
  rewrite app_nil_r in Hloop. cbn [app length] in Hloop. rewrite Hloop.
  destruct (stage_lines lines w) as [[r lines'] w']. by rewrite app_nil_r.
Qed.

Lemma stage_lines_length todo : forall w,
  length (stage_lines todo w).1.2 = length todo.
Proof.
  induction todo as [|line todo IH]; intros w; [done|]. cbn [stage_lines].
  destruct (stage_image line w) as [[staged|e] w1]; [|done].
  specialize (IH w1). destruct (stage_lines todo w1) as [[r lines] w2].
  simpl in *. by rewrite IH.
Qed.

Lemma stage_lines_app pre : forall post w,
  stage_lines (pre ++ post) w
  = match stage_lines pre w with
    | (Returned _, pre', w1) =>
        let '(r, post', w2) := stage_lines post w1 in (r, pre' ++ post', w2)
    | (Raised e, pre', w1) => (Raised e, pre' ++ post, w1)
    end.
Proof.
  induction pre as [|line pre IH]; intros post w.
  - cbn [app stage_lines]. by destruct (stage_lines post w) as [[r post'] w2].
  - cbn [app stage_lines]. destruct (stage_image line w) as [[staged|e] w1]; [|done].
    rewrite IH. destruct (stage_lines pre w1) as [[[[]|e] pre'] w2]; [|done].
    by destruct (stage_lines post w2) as [[r post'] w3].
Qed.

(** [stage_image] on a line that includes an image whose source is there,
    with the staging directory made and the conversion or the copy done. *)
Lemma stage_image_staged line path w w1 w2 :
  img_pattern line = Some path ->
  isfile path w = true ->
  makedirs (staging_directory path) w = (Returned tt, w1) ->
  (if PyStr.endswith ".svg" path
   then svg_to_pdf path (staged_pdf path) w1
   else copyfile path (staged_copy path) w1) = (Returned tt, w2) ->
  stage_image line w
  = (Returned (Some (if PyStr.endswith ".svg" path
                     then staged_pdf path else staged_copy path)), w2).
Proof.
  unfold staging_directory, staged_pdf, staged_copy, staging_directory.
  intros Himg Hfile Hdirs Hstage. unfold stage_image. rewrite Himg.
  destruct (PosixPath.split path) as [input_directory input_filename_w_ext].
  cbn [fst snd] in *. unfold bind at 1. rewrite Hfile. cbn [negb].
  unfold bind at 1. rewrite Hdirs.
  destruct (PyStr.endswith ".svg" path) eqn:Hsvg.
  - rewrite (proj2 (svg_pattern_Some line path) (conj Himg Hsvg)).
    destruct (PosixPath.splitext input_filename_w_ext) as [input_filename ext].
    cbn [fst] in *. unfold bind. by rewrite Hstage.
  - rewrite (svg_pattern_None _ _ Himg Hsvg). unfold bind. by rewrite Hstage.
Qed.

(** C7, as the code has it: take a line of the document that includes an
    image whose source is there, the pass having come through the lines
    before it, with the staging directory made.  A path that ends in
    [.svg] goes through [svg_to_pdf]; the staged path ends in [.pdf]: it is
    the file name with [.svg] swapped for [.pdf], unless the name before
    [.svg] is nothing but dots, which [splitext] takes for no extension,
    and then [.pdf] is added to the whole name.  Any other path goes
    through [copyfile] and is staged under its own name.  Either way
    [handle_images] leaves at the place of the line the line
    [\includegraphics[width=0.95\textwidth]{staged path}], after the lines
    before it as the pass left them, and goes on with the lines after it. *)
Theorem C7_images_staged fm (ctx : Ctx) pre line post path w0 pre' w w1 w2 :
  handle_images Ctx fm ctx (Store pre w0) = (Returned tt, Store pre' w) ->
  img_pattern line = Some path ->
  isfile path w = true ->
  makedirs (staging_directory path) w = (Returned tt, w1) ->
  (if PyStr.endswith ".svg" path
   then svg_to_pdf path (staged_pdf path) w1
   else copyfile path (staged_copy path) w1) = (Returned tt, w2) ->
  (length pre' = length pre /\
   exists r post' w3,
     handle_images Ctx fm ctx (Store post w2) = (r, Store post' w3) /\
     handle_images Ctx fm ctx (Store (pre ++ line :: post) w0)
     = (r, Store (pre' ++
                  ("\includegraphics[width=0.95\textwidth]{" +:+
                     (if PyStr.endswith ".svg" path
                      then staged_pdf path else staged_copy path) +:+ "}")
                  :: post') w3)) /\
  (PyStr.endswith ".svg" path = true ->
   PyStr.endswith ".pdf" (staged_pdf path) = true /\
   exists stem,
     snd (PosixPath.split path) = stem +:+ ".svg" /\
     staged_pdf path
     = PosixPath.join (staging_directory path)
         ((if PyStr.all_chars "." stem then stem +:+ ".svg" else stem) +:+ ".pdf")) /\
  (PyStr.endswith ".svg" path = false ->
   exists x, staged_copy path = x +:+ snd (PosixPath.split path)).
Proof.
  intros Hpre Himg Hfile Hdirs Hstage. split; [|split].
  - rewrite handle_images_stage in Hpre.
    pose proof (stage_lines_length pre w0) as Hlen.
    destruct (stage_lines pre w0) as [[r0 lines0] w'] eqn:Hpre0. cbn [fst snd] in Hlen.
    injection Hpre as -> -> ->. split; [lia|]. clear Hlen.
    destruct (stage_lines post w2) as [[r post'] w3] eqn:Hpost.
    exists r, post', w3. rewrite !handle_images_stage, Hpost. split; [done|].
    rewrite stage_lines_app, Hpre0. cbn [stage_lines].
    rewrite (stage_image_staged _ _ _ _ _ Himg Hfile Hdirs Hstage), Hpost.
    reflexivity.
  - intros Hsvg. split; [apply join_endswith|].
    destruct (split_tail_svg _ Hsvg) as [stem Hstem].
    pose proof (split_tail_no_sep path) as Hsep. rewrite Hstem in Hsep.
    exists stem. split; [done|].
    unfold staged_pdf. by rewrite Hstem, (splitext_svg stem Hsep).
  - intros _. apply join_keeps_name.
Qed.

(** A source that is missing is reported, and then copied all the same:
    when [copyfile] raises on it, so does the loop, at that line. *)
Lemma missing_image_copy_raises index line todo path st w1 w2 e :
  img_pattern line = Some path ->
  PyStr.endswith ".svg" path = false ->
  isfile path (os st) = false ->
  makedirs (staging_directory path)
    (print_error ("Image does not exist: " +:+ abspath path (os st)) (os st))
  = (Returned tt, w1) ->
  copyfile path (staged_copy path) w1 = (Raised e, w2) ->
  images_loop index (line :: todo) st = (Raised e, Store (tex_lines st) w2).
Proof.
  unfold staged_copy, staging_directory.
  intros Himg Hext Hfile Hdirs Hcopy. cbn [images_loop]. unfold bind at 1.
  unfold handle_image. rewrite Himg, (svg_pattern_None _ _ Himg Hext).
  destruct (PosixPath.split path) as [input_directory input_filename_w_ext].
  simpl in *. unfold bind at 1. unfold in_world at 1. rewrite Hfile. simpl.
  unfold bind at 1. unfold in_world at 1. simpl. rewrite Hdirs.
  unfold bind at 1. unfold bind at 1. unfold in_world at 1. simpl.
  by rewrite Hcopy.
Qed.

End ImageClaims.

Lemma C7_images_staged_witness :
  let svg_line := "\includegraphics{../images/logo.svg}" in
  let png_line := "\includegraphics{../images/photo.png}" in
  let made := Sim.record (Sim.MadeDirs "./tmp/images") Sim.disk in
  let rasterized :=
    Sim.record (Sim.Rasterized "images/logo.svg" "./tmp/images/logo.pdf")
      (Sim.State (<["./tmp/images/logo.pdf" := "%PDF <svg/>"]> (Sim.files Sim.disk))
         (Sim.log made)) in
  let made_again := Sim.record (Sim.MadeDirs "./tmp/images") rasterized in
  let copied :=
    Sim.record (Sim.Copied "images/photo.png" "./tmp/images/photo.png")
      (Sim.State (<["./tmp/images/photo.png" := "PNG"]> (Sim.files rasterized))
         (Sim.log made_again)) in
  handle_images unit sample_front_matter tt (Store ["text"; svg_line; png_line] Sim.disk)
  = (Returned tt,
     Store [ "text";
             "\includegraphics[width=0.95\textwidth]{./tmp/images/logo.pdf}";
             "\includegraphics[width=0.95\textwidth]{./tmp/images/photo.png}" ]
       copied) /\
  PyStr.endswith ".pdf" (staged_pdf "images/logo.svg") = true /\
  (exists x, staged_copy "images/photo.png" = x +:+ "photo.png").
Proof.
  intros svg_line png_line made rasterized made_again copied.
  destruct (@C7_images_staged Sim.sim_os unit sample_front_matter tt
              ["text"] svg_line [png_line] "images/logo.svg"
              Sim.disk ["text"] Sim.disk made rasterized
              eq_refl eq_refl eq_refl eq_refl eq_refl)
    as ((_ & r & post' & w3 & Hrest & Hsvg) & Hpdf & _).
  destruct (@C7_images_staged Sim.sim_os unit sample_front_matter tt
              [] png_line [] "images/photo.png"
              rasterized [] rasterized made_again copied
              eq_refl eq_refl eq_refl eq_refl eq_refl)
    as ((_ & r' & post'' & w3' & Hnil & Hpng) & _ & Hcopy).
  injection Hnil as <- <- <-.
  cbn [app] in Hpng. rewrite Hpng in Hrest. injection Hrest as <- <- <-.
  split_and!.
  - exact Hsvg.
  - apply Hpdf. reflexivity.
  - apply Hcopy. reflexivity.
Defined.

(** C7 as worded fails on a file named [.svg]: the pattern matches, the
    source is there and the converter is run, but the line then refers to
    [./tmp/images/.svg.pdf]; [.svg] has not been swapped for [.pdf]. *)
Lemma C7_counterexample :
  let line := "\includegraphics{../images/.svg}" in
  svg_pattern line = Some "images/.svg" /\
  PyStr.endswith ".svg" "images/.svg" = true /\
  isfile "images/.svg" dotfile_disk = true /\
  (exists w,
     handle_images unit sample_front_matter tt (Store [line] dotfile_disk)
     = (Returned tt,
        Store ["\includegraphics[width=0.95\textwidth]{./tmp/images/.svg.pdf}"] w) /\
     Sim.Rasterized "images/.svg" "./tmp/images/.svg.pdf" ∈ Sim.log w) /\
  ~ (exists stem w,
       "images/.svg" = stem +:+ ".svg" /\
       handle_images unit sample_front_matter tt (Store [line] dotfile_disk)
       = (Returned tt,
          Store ["\includegraphics[width=0.95\textwidth]{" +:+
                   ("./tmp/" +:+ stem +:+ ".pdf") +:+ "}"] w)).
Proof.
  intros line. split_and!; [reflexivity..| |].
  - eexists. split; [vm_compute; reflexivity|]. apply list_elem_of_here.
  - intros (stem & w & Hstem & Hrun).
    assert (stem = "images/") as ->.
    { pose proof (f_equal String.length Hstem) as Hlen.
      rewrite length_append in Hlen. cbn [String.length] in Hlen.
      assert (String.length stem = 7) as Hseven by lia.
      rewrite <- (take_append_length stem ".svg"), <- Hstem, Hseven. reflexivity. }
    vm_compute in Hrun. discriminate.
Qed.

(** C2 does not hold of the code: with [images/missing.png] not on disk,
    the pass reports it, makes the staging directory and raises
    [FileNotFoundError] at the copy; the line after it is not visited and
    the driver writes no output. *)
Theorem C2_missing_image_aborts :
  let lines := [ "\includegraphics{../images/missing.png}";
                 "\includegraphics{../images/photo.png}" ] in
  handle_images unit sample_front_matter tt (Store lines Sim.disk)
  = (Raised (Exn FileNotFoundError "images/missing.png"),
     Store lines
       (Sim.State (Sim.files Sim.disk)
          [ Sim.MadeDirs "./tmp/images";
            Sim.Diagnostic "Image does not exist: /work/images/missing.png" ])) /\
  forall output_file,
    patch_and_write unit sample_front_matter tt output_file
      (Store (documentclass_one_line :: begin_document :: lines) Sim.disk)
    = (Raised (Exn FileNotFoundError "images/missing.png"),
       Store
         (snd (insertion_passes unit sample_front_matter tt
                 (documentclass_one_line :: begin_document :: lines)))
         (Sim.State (Sim.files Sim.disk)
            [ Sim.MadeDirs "./tmp/images";
              Sim.Diagnostic "Image does not exist: /work/images/missing.png" ])).
Proof.
  intros lines. split.
  - unfold handle_images. cbn [tex_lines].
    apply missing_image_copy_raises
      with (path := "images/missing.png")
           (w1 := Sim.State (Sim.files Sim.disk)
                    [ Sim.MadeDirs "./tmp/images";
                      Sim.Diagnostic "Image does not exist: /work/images/missing.png" ]);
      reflexivity.
  - intros []. vm_compute. reflexivity.
Qed.

(** * Further properties of the insertion passes *)

Section InsertLines.

Implicit Types (l new_lines r : list string).

Lemma insert_at_past_end i x l :
  length l <= i -> PyList.insert_at i x l = l ++ [x].
Proof.
  intros Hi. unfold PyList.insert_at. by rewrite take_ge, drop_ge by lia.
Qed.

Lemma insert_run i x l : PyList.insert i x l = (Returned tt, PyList.insert_at i x l).
Proof. reflexivity. Qed.

(** The loop of [_insert_liness] over the lines it visits, last line
    first, when the index is at or past the end by [k]: the first [k] lines
    visited are appended one after the other, the rest go in at the index. *)
Lemma insert_loop_past_end r : forall l k,
  foldr (fun line m => PyList.insert (length l + k) line ;;; m) (ret tt) r l
  = (Returned tt, l ++ take k r ++ reverse (drop k r)).
Proof.
  induction r as [|x r IH]; intros l k.
  - cbn [foldr]. unfold ret. by rewrite take_nil, drop_nil, reverse_nil, !app_nil_r.
  - destruct k as [|k].
    + rewrite Nat.add_0_r.
      pose proof (insert_lines_run (length l) (reverse (x :: r)) l (Nat.le_refl _)) as Hrun.
      unfold _insert_liness in Hrun. rewrite reverse_involutive in Hrun.
      rewrite Hrun. rewrite take_ge, drop_ge by lia. cbn [take drop app]. by rewrite app_nil_r.
    + cbn [foldr]. unfold bind at 1. rewrite insert_run.
      rewrite insert_at_past_end by lia.
      replace (length l + S k) with (length (l ++ [x]) + k)
        by (rewrite length_app; simpl; lia).
      rewrite IH. by rewrite <- app_assoc.
Qed.

(** X1: [_insert_liness] always returns and makes the list longer by the
    number of new lines.  With the index within the list the block stands
    at the index in its own order, between the lines that were before the
    index and those that were after.  With the index past the end by [k]
    the last [k] lines of the block are appended in reverse order (each
    [insert] past the end appends) and the rest of the block follows them
    in order. *)
Theorem X1_insert_lines index new_lines l :
  (exists out,
     _insert_liness index new_lines l = (Returned tt, out) /\
     length out = length l + length new_lines) /\
  (index <= length l ->
   _insert_liness index new_lines l
   = (Returned tt, take index l ++ new_lines ++ drop index l)) /\
  (forall k, index = length l + k ->
   _insert_liness index new_lines l
   = (Returned tt,
      l ++ take k (reverse new_lines) ++ reverse (drop k (reverse new_lines)))).
Proof.
  assert (forall k, index = length l + k ->
            _insert_liness index new_lines l
            = (Returned tt,
               l ++ take k (reverse new_lines) ++ reverse (drop k (reverse new_lines))))
    as Hpast.
  { intros k ->. unfold _insert_liness. apply insert_loop_past_end. }
  split_and!; [| apply insert_lines_run | exact Hpast].
  destruct (decide (index <= length l)) as [Hin|Hout].
  - eexists. split; [by apply insert_lines_run|].
    rewrite !length_app, length_take, length_drop. lia.
  - eexists. split; [apply (Hpast (index - length l)); lia|].
    rewrite !length_app, length_reverse.
    rewrite <- length_app, take_drop, length_reverse. done.
Qed.

End InsertLines.

Lemma X1_insert_lines_witness :
  _insert_liness 1 ["a"; "b"; "c"] ["x"; "y"] = (Returned tt, ["x"; "a"; "b"; "c"; "y"]) /\
  _insert_liness 3 ["a"; "b"; "c"] ["x"; "y"] = (Returned tt, ["x"; "y"; "c"; "a"; "b"]) /\
  _insert_liness 9 ["a"; "b"; "c"] ["x"; "y"] = (Returned tt, ["x"; "y"; "c"; "b"; "a"]).
Proof.
  split_and!.
  - apply (proj1 (proj2 (X1_insert_lines 1 ["a"; "b"; "c"] ["x"; "y"]))). simpl. lia.
  - apply (proj2 (proj2 (X1_insert_lines 3 ["a"; "b"; "c"] ["x"; "y"])) 1). reflexivity.
  - apply (proj2 (proj2 (X1_insert_lines 9 ["a"; "b"; "c"] ["x"; "y"])) 7). reflexivity.
Defined.

Section MarginsErrors.

Variable Ctx : Type.
Implicit Types (fm : yaml_doc) (ctx : Ctx) (pre post lines : list string).

(** X2: which exception [add_margins] raises when the one-line
    declaration is absent.  No opening line: the [ValueError] of the second
    [index].  The first opening line is the last line: [IndexError] from
    reading the line after it.  The first opening line is followed by
    anything but the closing line: the [ValueError] of the first [index],
    raised again, even when a well-formed split declaration comes later.
    The lines are left as they were in all three cases. *)
Theorem X2_add_margins_errors fm ctx lines :
  documentclass_one_line ∉ lines ->
  (documentclass_open ∉ lines ->
   add_margins Ctx fm ctx lines = (Raised (Exn ValueError documentclass_open), lines)) /\
  (forall pre,
     lines = pre ++ [documentclass_open] -> documentclass_open ∉ pre ->
     add_margins Ctx fm ctx lines
     = (Raised (Exn IndexError "list index out of range"), lines)) /\
  (forall pre next post,
     lines = pre ++ documentclass_open :: next :: post ->
     documentclass_open ∉ pre -> next <> documentclass_close ->
     add_margins Ctx fm ctx lines
     = (Raised (Exn ValueError documentclass_one_line), lines)).
Proof.
  intros Hno. rewrite add_margins_handler by done. split_and!.
  - intros Hopen. by rewrite (proj2 (find_None _ _) Hopen).
  - intros pre -> Hpre. rewrite find_app by done.
    rewrite lookup_ge_None_2; [done|]. rewrite length_app. simpl. lia.
  - intros pre next post -> Hpre Hnext. rewrite find_app by done.
    rewrite lookup_app_r by lia.
    replace (length pre + 1 - length pre) with 1 by lia. simpl.
    by destruct (String.eqb_spec next documentclass_close).
Qed.

End MarginsErrors.

Lemma X2_add_margins_errors_witness :
  add_margins unit sample_front_matter tt [begin_document]
  = (Raised (Exn ValueError documentclass_open), [begin_document]) /\
  add_margins unit sample_front_matter tt ["% head"; documentclass_open]
  = (Raised (Exn IndexError "list index out of range"), ["% head"; documentclass_open]) /\
  add_margins unit sample_front_matter tt
    [documentclass_open; "12pt"; documentclass_open; documentclass_close]
  = (Raised (Exn ValueError documentclass_one_line),
     [documentclass_open; "12pt"; documentclass_open; documentclass_close]).
Proof.
  split_and!.
  - apply (X2_add_margins_errors unit sample_front_matter tt [begin_document]); absent.
  - apply (proj1 (proj2 (X2_add_margins_errors unit sample_front_matter tt
                           ["% head"; documentclass_open] ltac:(absent)))
             ["% head"]); [reflexivity | absent].
  - apply (proj2 (proj2 (X2_add_margins_errors unit sample_front_matter tt
                           [documentclass_open; "12pt"; documentclass_open;
                            documentclass_close] ltac:(absent)))
             [] "12pt" [documentclass_open; documentclass_close]);
      [reflexivity | absent | discriminate].
Defined.

Section FrontMatterNeeds.

Variable Ctx : Type.
Implicit Types (fm : yaml_doc) (ctx : Ctx) (pre post lines : list string).

Lemma title_lines_returned fm new :
  title_lines fm = Returned new ->
  exists title id revision manufacturer_name,
    provides fm title id revision manufacturer_name /\
    new = title_block title id revision manufacturer_name.
Proof.
  destruct fm as [m|v]; [|done]. unfold title_lines, subscript.
  destruct (m !! "title") as [[| | |title]|] eqn:Ht; try done.
  destruct (m !! "id") as [[| | |id]|] eqn:Hi; try done.
  destruct (m !! "revision") as [revision|] eqn:Hr; try done.
  destruct (m !! "manufacturer_name") as [[| | |name]|] eqn:Hm; try done.
  simpl. intros [= <-]. exists title, id, revision, name.
  split; [|done]. by exists m.
Qed.

Lemma header_lines_returned fm new :
  header_lines fm = Returned new ->
  exists (m : gmap string value) title id revision,
    fm = YMapping m /\
    m !! "title" = Some (VStr title) /\ m !! "id" = Some (VStr id) /\
    m !! "revision" = Some revision /\
    new = header_block title id revision.
Proof.
  destruct fm as [m|v]; [|done]. unfold header_lines, subscript.
  destruct (m !! "title") as [[| | |title]|] eqn:Ht; try done.
  destruct (m !! "id") as [[| | |id]|] eqn:Hi; try done.
  destruct (m !! "revision") as [revision|] eqn:Hr; try done.
  simpl. intros [= <-]. by exists m, title, id, revision.
Qed.

Lemma header_lines_given (m : gmap string value) title id revision :
  m !! "title" = Some (VStr title) -> m !! "id" = Some (VStr id) ->
  m !! "revision" = Some revision ->
  header_lines (YMapping m) = Returned (header_block title id revision).
Proof.
  intros Ht Hi Hr. unfold header_lines, subscript.
  rewrite Ht; simpl. rewrite Hi; simpl. by rewrite Hr.
Qed.

Lemma title_lines_raised fm e :
  title_lines fm = Raised e -> exn_cls e = KeyError \/ exn_cls e = TypeError.
Proof.
  destruct fm as [m|v]; [|intros [= <-]; by right]. unfold title_lines, subscript.
  destruct (m !! "title") as [[| | |title]|]; simpl;
    try (intros [= <-]; by auto).
  destruct (m !! "id") as [[| | |id]|]; simpl;
    try (intros [= <-]; by auto).
  destruct (m !! "revision") as [revision|]; simpl;
    try (intros [= <-]; by auto).
  destruct (m !! "manufacturer_name") as [[| | |name]|]; simpl;
    try (intros [= <-]; by auto); done.
Qed.

Lemma header_lines_raised fm e :
  header_lines fm = Raised e -> exn_cls e = KeyError \/ exn_cls e = TypeError.
Proof.
  destruct fm as [m|v]; [|intros [= <-]; by right]. unfold header_lines, subscript.
  destruct (m !! "title") as [[| | |title]|]; simpl;
    try (intros [= <-]; by auto).
  destruct (m !! "id") as [[| | |id]|]; simpl;
    try (intros [= <-]; by auto).
  destruct (m !! "revision") as [revision|]; simpl;
    try (intros [= <-]; by auto); done.
Qed.

Lemma begin_document_not_in_header_block title id revision :
  begin_document ∉ header_block title id revision.
Proof.
  unfold header_block. rewrite !not_elem_of_cons.
  split_and!; [vm_compute; discriminate.. | apply not_elem_of_nil].
Qed.

(** X3: what the two anchor passes need of the front matter.  On a
    document that has the anchor, [add_title_and_toc] returns exactly when
    the front matter is a mapping with [title], [id] and
    [manufacturer_name] strings and a [revision] of any kind, and
    [add_header_and_footer] exactly when it is a mapping with [title] and
    [id] strings and a [revision]: it never reads [manufacturer_name]. *)
Theorem X3_front_matter_needed fm ctx lines :
  begin_document ∈ lines ->
  ((exists out, add_title_and_toc Ctx fm ctx lines = (Returned tt, out)) <->
   (exists title id revision manufacturer_name,
      provides fm title id revision manufacturer_name)) /\
  ((exists out, add_header_and_footer Ctx fm ctx lines = (Returned tt, out)) <->
   (exists (m : gmap string value) title id revision,
      fm = YMapping m /\
      m !! "title" = Some (VStr title) /\ m !! "id" = Some (VStr id) /\
      m !! "revision" = Some revision)).
Proof.
  intros Hin. destruct (elem_of_first _ _ Hin) as (pre & post & -> & Hpre).
  unfold add_title_and_toc, add_header_and_footer.
  rewrite !around_anchor_run by done. split; split.
  - intros [out Hrun]. destruct (title_lines fm) as [new|e] eqn:Hnew; [|done].
    destruct (title_lines_returned _ _ Hnew) as (t & i & r & n & Hp & _). eauto.
  - intros (t & i & r & n & Hp).
    rewrite (title_lines_provided _ _ _ _ _ Hp). eauto.
  - intros [out Hrun]. destruct (header_lines fm) as [new|e] eqn:Hnew; [|done].
    destruct (header_lines_returned _ _ Hnew) as (m & t & i & r & ? & ? & ? & ? & _).
    by exists m, t, i, r.
  - intros (m & t & i & r & -> & Ht & Hi & Hr).
    rewrite (header_lines_given _ _ _ _ Ht Hi Hr). eauto.
Qed.

(** X4: when an anchor pass raises although the anchor is there, the
    exception is a [KeyError] or a [TypeError] from building the block that
    goes before the anchor, and the lines are left with the block that goes
    after the anchor already in place behind the first anchor and nothing
    else changed.  A front matter that is not a mapping makes both passes
    raise [TypeError] in this way. *)
Theorem X4_front_matter_failure fm ctx pre post :
  begin_document ∉ pre ->
  (forall e out,
     add_title_and_toc Ctx fm ctx (pre ++ begin_document :: post) = (Raised e, out) ->
     out = pre ++ begin_document :: toc_after ++ post /\
     (exn_cls e = KeyError \/ exn_cls e = TypeError)) /\
  (forall e out,
     add_header_and_footer Ctx fm ctx (pre ++ begin_document :: post) = (Raised e, out) ->
     out = pre ++ begin_document :: header_after ++ post /\
     (exn_cls e = KeyError \/ exn_cls e = TypeError)) /\
  (forall v, fm = YScalar v ->
     exists e,
       exn_cls e = TypeError /\
       add_title_and_toc Ctx fm ctx (pre ++ begin_document :: post)
       = (Raised e, pre ++ begin_document :: toc_after ++ post) /\
       add_header_and_footer Ctx fm ctx (pre ++ begin_document :: post)
       = (Raised e, pre ++ begin_document :: header_after ++ post)).
Proof.
  intros Hpre. unfold add_title_and_toc, add_header_and_footer.
  rewrite !around_anchor_run by done. split_and!.
  - intros e out. destruct (title_lines fm) as [new|e'] eqn:Hnew; [done|].
    intros [= <- <-]. split; [done|]. by apply (title_lines_raised fm).
  - intros e out. destruct (header_lines fm) as [new|e'] eqn:Hnew; [done|].
    intros [= <- <-]. split; [done|]. by apply (header_lines_raised fm).
  - intros v ->. exists (Exn TypeError "object is not subscriptable by str").
    by split_and!.
Qed.

(** X5: both anchor passes work on the first [\begin{document}] line
    only: whatever follows it, further anchor lines included, is kept as it
    is behind the inserted lines. *)
Theorem X5_first_anchor_only fm ctx title id revision manufacturer_name pre post :
  provides fm title id revision manufacturer_name ->
  begin_document ∉ pre ->
  add_title_and_toc Ctx fm ctx (pre ++ begin_document :: post)
  = (Returned tt,
     pre ++ title_block title id revision manufacturer_name
         ++ begin_document :: toc_after ++ post) /\
  add_header_and_footer Ctx fm ctx (pre ++ begin_document :: post)
  = (Returned tt,
     pre ++ header_block title id revision
         ++ begin_document :: header_after ++ post).
Proof.
  intros Hfm Hpre. split.
  - by apply add_title_and_toc_run.
  - by eapply add_header_and_footer_run.
Qed.

Lemma count_lines_absent x (l : list string) : x ∉ l -> count_lines x l = 0.
Proof. apply count_lines_zero. Qed.

(** X6: no insertion pass adds or removes a [\begin{document}] line,
    whether it returns or raises: the lines it leaves hold the anchor as
    many times as the lines it was given. *)
Theorem X6_anchor_count_kept fm ctx lines :
  count_lines begin_document (snd (add_margins Ctx fm ctx lines))
  = count_lines begin_document lines /\
  count_lines begin_document (snd (add_title_and_toc Ctx fm ctx lines))
  = count_lines begin_document lines /\
  count_lines begin_document (snd (add_header_and_footer Ctx fm ctx lines))
  = count_lines begin_document lines.
Proof.
  split_and!.
  - destruct (add_margins_cases Ctx fm ctx lines) as [(i & _ & ->)|[e ->]]; [|done].
    simpl. by apply count_lines_insert_at.
  - unfold add_title_and_toc.
    destruct (decide (begin_document ∈ lines)) as [Hin|Hno].
    + destruct (elem_of_first _ _ Hin) as (pre & post & -> & Hpre).
      rewrite around_anchor_run by done.
      destruct (title_lines fm) as [new|e] eqn:Hnew; simpl.
      * destruct (title_lines_returned _ _ Hnew) as (t & i & r & n & _ & ->).
        rewrite !count_lines_app.
        rewrite (count_lines_absent _ _ (begin_document_not_in_title_block t i r n)).
        simpl. lia.
      * rewrite !count_lines_app. simpl. lia.
    + by rewrite around_anchor_missing.
  - unfold add_header_and_footer.
    destruct (decide (begin_document ∈ lines)) as [Hin|Hno].
    + destruct (elem_of_first _ _ Hin) as (pre & post & -> & Hpre).
      rewrite around_anchor_run by done.
      destruct (header_lines fm) as [new|e] eqn:Hnew; simpl.
      * destruct (header_lines_returned _ _ Hnew) as (m & t & i & r & _ & _ & _ & _ & ->).
        rewrite !count_lines_app.
        rewrite (count_lines_absent _ _ (begin_document_not_in_header_block t i r)).
        simpl. lia.
      * rewrite !count_lines_app. simpl. lia.
    + by rewrite around_anchor_missing.
Qed.

(** X7: the two anchor passes do not commute.  Run the other way round,
    header pass first, the header block comes before the title block and
    the title pass's four lines come right after the anchor, with the
    header pass's [\thispagestyle{empty}] behind them. *)
Theorem X7_header_then_title fm ctx title id revision manufacturer_name pre post :
  provides fm title id revision manufacturer_name ->
  begin_document ∉ pre ->
  (add_header_and_footer Ctx fm ctx ;;; add_title_and_toc Ctx fm ctx)
    (pre ++ begin_document :: post)
  = (Returned tt,
     pre ++ header_block title id revision
         ++ title_block title id revision manufacturer_name
         ++ begin_document :: toc_after ++ header_after ++ post) /\
  (add_header_and_footer Ctx fm ctx ;;; add_title_and_toc Ctx fm ctx)
    (pre ++ begin_document :: post)
  <> (add_title_and_toc Ctx fm ctx ;;; add_header_and_footer Ctx fm ctx)
       (pre ++ begin_document :: post).
Proof.
  intros Hfm Hpre.
  assert ((add_header_and_footer Ctx fm ctx ;;; add_title_and_toc Ctx fm ctx)
            (pre ++ begin_document :: post)
          = (Returned tt,
             pre ++ header_block title id revision
                 ++ title_block title id revision manufacturer_name
                 ++ begin_document :: toc_after ++ header_after ++ post)) as Hrun.
  { unfold bind.
    rewrite (add_header_and_footer_run _ _ _ _ _ _ _ _ _ Hfm Hpre).
    rewrite app_assoc.
    rewrite (add_title_and_toc_run _ _ _ _ _ _ _ _ _ Hfm).
    - by rewrite <- !app_assoc.
    - apply not_elem_of_app. split; [done|].
      apply begin_document_not_in_header_block. }
  split; [exact Hrun|].
  rewrite Hrun, (title_then_header_run _ _ _ _ _ _ _ _ _ Hfm Hpre).
  intros [= Heq]. apply app_inv_head in Heq.
  vm_compute in Heq. discriminate.
Qed.

End FrontMatterNeeds.

Lemma X3_front_matter_needed_witness :
  (exists out,
     add_header_and_footer unit front_matter_without_author tt minimal_document
     = (Returned tt, out)) /\
  ~ (exists out,
       add_title_and_toc unit front_matter_without_author tt minimal_document
       = (Returned tt, out)).
Proof.
  destruct (X3_front_matter_needed unit front_matter_without_author tt minimal_document)
    as [Htitle Hheader].
  { unfold minimal_document. apply list_elem_of_further, list_elem_of_here. }
  split.
  - apply Hheader. eexists _, "Spec", "DOC-1", (VInt 2).
    split; [reflexivity|]. repeat split; reflexivity.
  - intros Hout. apply Htitle in Hout as (t & i & r & n & m & Hm & _ & _ & _ & Hname).
    injection Hm as <-. vm_compute in Hname. discriminate.
Defined.

Lemma X4_front_matter_failure_witness :
  (forall e out,
     add_title_and_toc unit (YMapping ∅) tt
       ([documentclass_one_line] ++ begin_document :: ["Hello"]) = (Raised e, out) ->
     out = [documentclass_one_line] ++ begin_document :: toc_after ++ ["Hello"] /\
     (exn_cls e = KeyError \/ exn_cls e = TypeError)) /\
  add_title_and_toc unit (YMapping ∅) tt [documentclass_one_line; begin_document; "Hello"]
  = (Raised (Exn KeyError "title"),
     [documentclass_one_line; begin_document;
      "\maketitle"; "\thispagestyle{empty}"; "\tableofcontents"; "\pagebreak"; "Hello"]).
Proof.
  split.
  - apply (X4_front_matter_failure unit (YMapping ∅) tt [documentclass_one_line] ["Hello"]).
    absent.
  - reflexivity.
Defined.

Lemma X5_first_anchor_only_witness :
  add_title_and_toc unit sample_front_matter tt
    ([documentclass_one_line] ++ begin_document :: ["a"; begin_document; "b"])
  = (Returned tt,
     [documentclass_one_line] ++ title_block "Spec" "DOC-1" (VInt 2) "Acme"
       ++ begin_document :: toc_after ++ ["a"; begin_document; "b"]) /\
  add_header_and_footer unit sample_front_matter tt
    ([documentclass_one_line] ++ begin_document :: ["a"; begin_document; "b"])
  = (Returned tt,
     [documentclass_one_line] ++ header_block "Spec" "DOC-1" (VInt 2)
       ++ begin_document :: header_after ++ ["a"; begin_document; "b"]).
Proof.
  apply (X5_first_anchor_only unit sample_front_matter tt "Spec" "DOC-1" (VInt 2) "Acme").
  - apply sample_front_matter_provides.
  - absent.
Defined.

Lemma X7_header_then_title_witness :
  (add_header_and_footer unit sample_front_matter tt ;;;
   add_title_and_toc unit sample_front_matter tt)
    ([documentclass_one_line] ++ begin_document :: ["Hello"])
  = (Returned tt,
     [documentclass_one_line] ++ header_block "Spec" "DOC-1" (VInt 2)
       ++ title_block "Spec" "DOC-1" (VInt 2) "Acme"
       ++ begin_document :: toc_after ++ header_after ++ ["Hello"]) /\
  (add_header_and_footer unit sample_front_matter tt ;;;
   add_title_and_toc unit sample_front_matter tt)
    ([documentclass_one_line] ++ begin_document :: ["Hello"])
  <> (add_title_and_toc unit sample_front_matter tt ;;;
      add_header_and_footer unit sample_front_matter tt)
       ([documentclass_one_line] ++ begin_document :: ["Hello"]).
Proof.
  apply (X7_header_then_title unit sample_front_matter tt "Spec" "DOC-1" (VInt 2) "Acme").
  - apply sample_front_matter_provides.
  - absent.
Defined.

Section Pipeline.

Variable Ctx : Type.
Implicit Types (fm : yaml_doc) (ctx : Ctx) (pre post lines : list string).

Lemma add_margins_returned fm ctx lines out :
  add_margins Ctx fm ctx lines = (Returned tt, out) ->
  declares_article lines /\ exists i, out = PyList.insert_at i geometry lines.
Proof.
  intros Hrun. destruct (decide (documentclass_one_line ∈ lines)) as [Hin|Hno].
  - split; [by left|].
    destruct (add_margins_cases Ctx fm ctx lines) as [(i & _ & Hi)|[e He]].
    + rewrite Hi in Hrun. injection Hrun as <-. by exists i.
    + by rewrite He in Hrun.
  - rewrite add_margins_handler in Hrun by done.
    destruct (PyList.find documentclass_open lines) as [i|] eqn:Hf; [|done].
    destruct (lines !! (i + 1)) as [next|] eqn:Hnext; [|done].
    destruct (String.eqb_spec next documentclass_close) as [->|]; [|done].
    injection Hrun as <-. split; [|by eexists].
    right. destruct (find_Some _ _ _ Hf) as (pre & post & -> & Hpre & <-).
    rewrite lookup_app_r in Hnext by lia.
    replace (length pre + 1 - length pre) with 1 in Hnext by lia.
    destruct post as [|next post]; [done|]. injection Hnext as ->.
    by exists pre, post.
Qed.

Lemma add_title_and_toc_returned fm ctx lines out :
  add_title_and_toc Ctx fm ctx lines = (Returned tt, out) ->
  begin_document ∈ lines /\
  exists title id revision manufacturer_name,
    provides fm title id revision manufacturer_name.
Proof.
  intros Hrun. unfold add_title_and_toc in Hrun.
  destruct (decide (begin_document ∈ lines)) as [Hin|Hno].
  - split; [done|].
    destruct (elem_of_first _ _ Hin) as (pre & post & -> & Hpre).
    rewrite around_anchor_run in Hrun by done.
    destruct (title_lines fm) as [new|e] eqn:Hnew; [|done].
    destruct (title_lines_returned _ _ Hnew) as (t & i & r & n & Hp & _). eauto.
  - by rewrite around_anchor_missing in Hrun.
Qed.

Lemma insertion_passes_run fm ctx title id revision manufacturer_name lines :
  declares_article lines -> begin_document ∈ lines ->
  provides fm title id revision manufacturer_name ->
  exists out,
    insertion_passes Ctx fm ctx lines = (Returned tt, out) /\
    length out = length lines + 16.
Proof.
  intros Hd Hin Hfm.
  destruct (add_margins_declared Ctx fm ctx _ Hd) as (k & Hk & Hm).
  assert (begin_document ∈ PyList.insert_at k geometry lines) as Hin1.
  { destruct (decide (begin_document ∈ PyList.insert_at k geometry lines))
      as [|Hno]; [done|].
    apply count_lines_zero in Hno.
    rewrite count_lines_insert_at in Hno by discriminate.
    by apply count_lines_zero in Hno. }
  destruct (elem_of_first _ _ Hin1) as (pre1 & post1 & Heq & Hpre1).
  eexists. split.
  - unfold insertion_passes. unfold bind at 1. rewrite Hm, Heq.
    by apply title_then_header_run.
  - apply (f_equal length) in Heq. rewrite insert_at_length in Heq.
    rewrite ?length_app in *. simpl in *. rewrite ?length_app. simpl. lia.
Qed.

(** X8: the three insertion passes in the driver's order return exactly
    when the document declares its class in one of the two shapes, holds a
    [\begin{document}] line, and the front matter is a mapping with
    [title], [id] and [manufacturer_name] strings and a [revision]; the
    document they return is 16 lines longer than the one they were given,
    however many anchor lines it holds. *)
Theorem X8_insertion_passes_return fm ctx lines :
  ((exists out, insertion_passes Ctx fm ctx lines = (Returned tt, out)) <->
   declares_article lines /\
   begin_document ∈ lines /\
   exists title id revision manufacturer_name,
     provides fm title id revision manufacturer_name) /\
  (forall out,
     insertion_passes Ctx fm ctx lines = (Returned tt, out) ->
     length out = length lines + 16).
Proof.
  assert ((exists out, insertion_passes Ctx fm ctx lines = (Returned tt, out)) ->
          declares_article lines /\
          begin_document ∈ lines /\
          exists title id revision manufacturer_name,
            provides fm title id revision manufacturer_name) as Hneeds.
  { intros [out Hrun]. unfold insertion_passes in Hrun. unfold bind at 1 in Hrun.
    destruct (add_margins Ctx fm ctx lines) as [[[]|e] lines1] eqn:Hm; [|done].
    destruct (add_margins_returned _ _ _ _ Hm) as [Hd [i ->]].
    unfold bind at 1 in Hrun.
    destruct (add_title_and_toc Ctx fm ctx (PyList.insert_at i geometry lines))
      as [[[]|e] lines2] eqn:Ht; [|done].
    destruct (add_title_and_toc_returned _ _ _ _ Ht) as [Hin Hfm].
    split_and!; [done| |done].
    destruct (decide (begin_document ∈ lines)) as [|Hno]; [done|].
    apply count_lines_zero in Hno.
    rewrite <- (count_lines_insert_at begin_document geometry i) in Hno
      by discriminate.
    by apply count_lines_zero in Hno. }
  split; [split; [exact Hneeds|] |].
  - intros (Hd & Hin & t & i & r & n & Hfm).
    destruct (insertion_passes_run fm ctx _ _ _ _ _ Hd Hin Hfm) as (out & Hrun & _).
    eauto.
  - intros out Hrun.
    destruct (Hneeds (ex_intro _ out Hrun)) as (Hd & Hin & t & i & r & n & Hfm).
    destruct (insertion_passes_run fm ctx _ _ _ _ _ Hd Hin Hfm) as (out' & Hrun' & Hlen).
    rewrite Hrun in Hrun'. by injection Hrun' as <-.
Qed.

End Pipeline.

Lemma X8_insertion_passes_return_witness :
  (exists out,
     insertion_passes unit sample_front_matter tt
       ["% head"; documentclass_open; documentclass_close; begin_document; begin_document]
     = (Returned tt, out)) /\
  ~ (exists out,
       insertion_passes unit front_matter_without_author tt minimal_document
       = (Returned tt, out)) /\
  length (snd (insertion_passes unit sample_front_matter tt minimal_document))
  = length minimal_document + 16.
Proof.
  split_and!.
  - apply (proj1 (X8_insertion_passes_return unit sample_front_matter tt _)).
    split_and!.
    + right. exists ["% head"], [begin_document; begin_document].
      split; [reflexivity | absent].
    + do 3 apply list_elem_of_further. apply list_elem_of_here.
    + eexists _, _, _, _. apply sample_front_matter_provides.
  - intros Hout.
    apply (proj1 (X8_insertion_passes_return unit front_matter_without_author tt _))
      in Hout as (_ & _ & t & i & r & n & m & Hm & _ & _ & _ & Hname).
    injection Hm as <-. vm_compute in Hname. discriminate.
  - apply (proj2 (X8_insertion_passes_return unit sample_front_matter tt minimal_document)).
    reflexivity.
Defined.

(** * Further properties of the image pass *)

Lemma rewritten_not_matched (output_path : string) :
  img_pattern (rewritten output_path) = None /\
  svg_pattern (rewritten output_path) = None.
Proof.
  assert (PyStr.startswith includegraphics_open (rewritten output_path) = false) as Hs
    by (vm_compute; reflexivity).
  unfold img_pattern, svg_pattern, search_includegraphics. by rewrite Hs.
Qed.

Section ImageLoop.

Context `{OS}.
Variable Ctx : Type.
Implicit Types (line : string) (st : store) (todo done : list string).

Lemma handle_image_unmatched index line st :
  img_pattern line = None -> handle_image index line st = (Returned tt, st).
Proof. intros Himg. unfold handle_image. by rewrite Himg. Qed.

Lemma keeps_lines_in_world {A} (m : M world A) : keeps_lines (in_world m).
Proof.
  intros st r st1. unfold in_world. destruct (m (os st)) as [r' w].
  by intros [= <- <-].
Qed.

Lemma keeps_lines_bind {A B} (m : M store A) (k : A -> M store B) :
  keeps_lines m -> (forall a, keeps_lines (k a)) -> keeps_lines (bind m k).
Proof.
  intros Hm Hk st r st1. unfold bind.
  destruct (m st) as [[a|e] st0] eqn:Hrun.
  - intros Hrun'. rewrite (Hk a _ _ _ Hrun'). by eapply Hm.
  - intros [= <- <-]. by eapply Hm.
Qed.

Lemma keeps_lines_ret {A} (a : A) : keeps_lines (ret a).
Proof. by intros st r st1 [= <- <-]. Qed.

Lemma writes_at_bind {A} index (m : M store A) (k : A -> M store unit) :
  keeps_lines m -> (forall a, writes_at index (k a)) -> writes_at index (bind m k).
Proof.
  intros Hm Hk st r st1 Hindex. unfold bind.
  destruct (m st) as [[a|e] st0] eqn:Hrun.
  - intros Hrun'. pose proof (Hm _ _ _ Hrun) as Hl.
    destruct (Hk a st0 r st1) as [[He Hl']|[Hr [out Hl']]]; [by rewrite Hl | done | |].
    + left. split; [done | congruence].
    + right. split; [done|]. exists out. congruence.
  - intros [= <- <-]. left. split; [by eexists | by eapply Hm].
Qed.

Lemma writes_at_setitem index output_path :
  writes_at index (setitem index (rewritten output_path)).
Proof.
  intros st r st1 Hindex. rewrite setitem_run by done.
  intros [= <- <-]. right. split; [done|]. by exists output_path.
Qed.

(** One turn of the loop: a line the pattern does not match changes
    nothing; on a line it matches the lines are as before and the turn
    raised, or the turn returned and the line at the index is a rewritten
    one. *)
Lemma handle_image_outcome index line st r st1 :
  index < length (tex_lines st) ->
  handle_image index line st = (r, st1) ->
  (img_pattern line = None /\ r = Returned tt /\ st1 = st) \/
  (img_pattern line <> None /\
   ((exists e, r = Raised e) /\ tex_lines st1 = tex_lines st \/
    r = Returned tt /\
    exists output_path,
      tex_lines st1 = <[index := rewritten output_path]> (tex_lines st))).
Proof.
  intros Hindex. destruct (img_pattern line) as [path|] eqn:Himg.
  2:{ rewrite handle_image_unmatched by done. intros [= <- <-]. by left. }
  intros Hrun. right. split; [done|]. revert st r st1 Hindex Hrun.
  change (writes_at index (handle_image index line)).
  unfold handle_image. rewrite Himg.
  destruct (PosixPath.split path) as [input_directory input_filename_w_ext].
  apply writes_at_bind; [apply keeps_lines_in_world|]. intros _.
  apply writes_at_bind; [apply keeps_lines_in_world|]. intros _.
  apply writes_at_bind.
  - destruct (svg_pattern line).
    + destruct (PosixPath.splitext input_filename_w_ext) as [input_filename ext].
      apply keeps_lines_bind; [apply keeps_lines_in_world|].
      intros _. apply keeps_lines_ret.
    + apply keeps_lines_bind; [apply keeps_lines_in_world|].
      intros _. apply keeps_lines_ret.
  - intros output_path. apply writes_at_setitem.
Qed.

Lemma images_loop_lines todo : forall done st r st',
  tex_lines st = done ++ todo ->
  images_loop (length done) todo st = (r, st') ->
  exists todo',
    tex_lines st' = done ++ todo' /\
    Forall2 image_rewrite todo todo' /\
    (r = Returned tt -> Forall (fun new => img_pattern new = None) todo').
Proof.
  induction todo as [|line todo IH]; intros done st r st' Hlines Hrun.
  - injection Hrun as <- <-. exists []. by split_and!.
  - cbn [images_loop] in Hrun. unfold bind at 1 in Hrun.
    destruct (handle_image (length done) line st) as [r1 st1] eqn:Hturn.
    assert (length done < length (tex_lines st)) as Hindex
      by (rewrite Hlines, length_app; simpl; lia).
    assert (Forall2 image_rewrite todo todo) as Hsame
      by (apply Forall2_same_length_lookup_2; [done|]; intros ??? ? ?; left; congruence).
    destruct (handle_image_outcome _ _ _ _ _ Hindex Hturn)
      as [(Himg & -> & ->) | (Himg & [[[e ->] Hl] | [-> [output_path Hl]]])].
    + destruct (IH (done ++ [line]) st r st') as (todo' & Hl' & Hrel & Hret).
      { by rewrite Hlines, <- app_assoc. }
      { rewrite length_app. simpl. by rewrite Nat.add_1_r. }
      exists (line :: todo'). rewrite <- app_assoc in Hl'. split_and!; [done| |].
      * constructor; [by left | done].
      * intros Hr. constructor; auto.
    + injection Hrun as <- <-. exists (line :: todo). split_and!; [congruence| |done].
      constructor; [by left | done].
    + rewrite Hlines in Hl.
      rewrite insert_app_r_alt, Nat.sub_diag in Hl by lia. cbn [insert list_insert] in Hl.
      destruct (IH (done ++ [rewritten output_path]) st1 r st') as (todo' & Hl' & Hrel & Hret).
      { by rewrite Hl, <- app_assoc. }
      { rewrite length_app. simpl. by rewrite Nat.add_1_r. }
      exists (rewritten output_path :: todo'). rewrite <- app_assoc in Hl'.
      split_and!; [done| |].
      * constructor; [right; by eauto | done].
      * intros Hr. constructor; [apply rewritten_not_matched | auto].
Qed.

Lemma images_loop_unmatched todo : forall index st,
  Forall (fun line => img_pattern line = None) todo ->
  images_loop index todo st = (Returned tt, st).
Proof.
  induction todo as [|line todo IH]; intros index st Hall; [done|].
  apply Forall_cons in Hall as [Hline Hall].
  cbn [images_loop]. unfold bind. rewrite handle_image_unmatched by done.
  by apply IH.
Qed.

(** X9: whatever [handle_images] comes to, returning or raising, it
    leaves as many lines as it was given, each either the line that was
    there or, where the image pattern matched, a line written for a staged
    file; a line the pattern does not match is never touched. *)
Theorem X9_handle_images_lines fm (ctx : Ctx) st :
  let st' := snd (handle_images Ctx fm ctx st) in
  Forall2 image_rewrite (tex_lines st) (tex_lines st') /\
  length (tex_lines st') = length (tex_lines st) /\
  forall i line,
    tex_lines st !! i = Some line -> img_pattern line = None ->
    tex_lines st' !! i = Some line.
Proof.
  intros st'. subst st'.
  destruct (handle_images Ctx fm ctx st) as [r st'] eqn:Hrun. simpl.
  destruct (images_loop_lines (tex_lines st) [] st r st' eq_refl Hrun)
    as (todo' & Hl & Hrel & _).
  simpl in Hl. subst todo'.
  split_and!; [done | symmetry; by eapply Forall2_length |].
  intros i line Hi Himg.
  destruct (Forall2_lookup_l _ _ _ _ _ Hrel Hi) as (new & Hnew & [->|[Hm _]]); done.
Qed.

(** X10: on lines none of which the image pattern matches,
    [handle_images] returns and has changed neither the lines nor the
    world: no diagnostic, no directory, no copy, no conversion. *)
Theorem X10_no_image_no_effect fm (ctx : Ctx) st :
  Forall (fun line => img_pattern line = None) (tex_lines st) ->
  handle_images Ctx fm ctx st = (Returned tt, st).
Proof. intros Hall. unfold handle_images. by apply images_loop_unmatched. Qed.

(** X11: the lines [handle_images] writes are not matched by its own
    patterns, so a second run over what a run returned returns as well and
    changes nothing, lines or world. *)
Theorem X11_handle_images_again fm (ctx : Ctx) st st' :
  handle_images Ctx fm ctx st = (Returned tt, st') ->
  Forall (fun line => img_pattern line = None /\ svg_pattern line = None) (tex_lines st') /\
  handle_images Ctx fm ctx st' = (Returned tt, st').
Proof.
  intros Hrun.
  destruct (images_loop_lines (tex_lines st) [] st _ st' eq_refl Hrun)
    as (todo' & Hl & _ & Hret).
  simpl in Hl. subst todo'. specialize (Hret eq_refl). split.
  - eapply Forall_impl; [exact Hret|]. intros line Himg. split; [done|].
    destruct (svg_pattern line) as [p|] eqn:Hs; [|done].
    apply svg_pattern_Some in Hs as [? _]. congruence.
  - unfold handle_images. by apply images_loop_unmatched.
Qed.

End ImageLoop.

Lemma X10_no_image_no_effect_witness :
  handle_images unit sample_front_matter tt
    (Store ["\section{Intro}"; "\includegraphics{images/logo.svg}"] Sim.disk)
  = (Returned tt, Store ["\section{Intro}"; "\includegraphics{images/logo.svg}"] Sim.disk).
Proof.
  apply (X10_no_image_no_effect unit sample_front_matter tt). simpl.
  repeat (apply Forall_cons; split; [reflexivity|]). apply Forall_nil_2.
Defined.

Lemma X11_handle_images_again_witness :
  let st' :=
    snd (handle_images unit sample_front_matter tt
           (Store [ "\includegraphics{../images/logo.svg}";
                    "\includegraphics{../images/photo.png}" ] Sim.disk)) in
  tex_lines st'
  = [ "\includegraphics[width=0.95\textwidth]{./tmp/images/logo.pdf}";
      "\includegraphics[width=0.95\textwidth]{./tmp/images/photo.png}" ] /\
  handle_images unit sample_front_matter tt st' = (Returned tt, st').
Proof.
  intros st'. split; [reflexivity|].
  apply (X11_handle_images_again unit sample_front_matter tt
           (@Store Sim.sim_os [ "\includegraphics{../images/logo.svg}";
                                "\includegraphics{../images/photo.png}" ] Sim.disk) st').
  reflexivity.
Defined.

(** * The image pattern and the staged paths *)

Section PatternShape.

Implicit Types (s t x line path : string) (a b : ascii).

Lemma append_last_inj s t a b :
  s +:+ String a "" = t +:+ String b "" -> s = t /\ a = b.
Proof.
  revert t. induction s as [|c s IH]; intros [|c' t]; rewrite ?append_String, ?append_empty.
  - by intros [= ->].
  - intros [= -> Ht]. by destruct t.
  - intros [= -> Hs]. by destruct s.
  - intros [= -> Hst]. destruct (IH _ Hst) as [-> ->]. done.
Qed.

Lemma endswith_other_last suf x a b :
  a <> b -> PyStr.endswith (suf +:+ String b "") (x +:+ String a "") = false.
Proof.
  intros Hab. destruct (PyStr.endswith _ _) eqn:He; [|done].
  apply endswith_split in He as [y Hy]. rewrite <- append_assoc in Hy.
  by apply append_last_inj in Hy as [_ ?].
Qed.

Lemma take_all_but n x suf :
  n = String.length suf ->
  PyStr.take (String.length (x +:+ suf) - n) (x +:+ suf) = x.
Proof.
  intros ->. rewrite length_append.
  replace (String.length x + String.length suf - String.length suf)
    with (String.length x) by lia.
  apply take_append_length.
Qed.

(** X12: the lines the image pattern matches, and the path it takes from
    them.  It matches exactly an [\includegraphics{../] at the very start,
    a path without newline and a closing brace at the very end, or before
    one final newline; the path it gives is the text in between.  The SVG
    pattern matches the same lines when that path ends in [.svg]. *)
Theorem X12_pattern_lines line path :
  (img_pattern line = Some path <->
   PyStr.contains_char nl path = false /\
   (line = includegraphics_open +:+ path +:+ "}" \/
    line = includegraphics_open +:+ path +:+ "}" +:+ NL)) /\
  (svg_pattern line = Some path <->
   PyStr.contains_char nl path = false /\
   PyStr.endswith ".svg" path = true /\
   (line = includegraphics_open +:+ path +:+ "}" \/
    line = includegraphics_open +:+ path +:+ "}" +:+ NL)).
Proof.
  assert (img_pattern line = Some path <->
          PyStr.contains_char nl path = false /\
          (line = includegraphics_open +:+ path +:+ "}" \/
           line = includegraphics_open +:+ path +:+ "}" +:+ NL)) as Himg.
  { unfold img_pattern, search_includegraphics. split.
    - destruct (PyStr.startswith includegraphics_open line) eqn:Hs; [|done].
      apply prefix_split in Hs as [rest ->]. rewrite drop_append_length.
      destruct (PyStr.endswith ("}" +:+ NL) rest) eqn:H1.
      + apply endswith_split in H1 as [x ->].
        rewrite (take_all_but 2 x ("}" +:+ NL) eq_refl).
        destruct (PyStr.contains_char nl x) eqn:Hnl; [done|].
        intros [= <-]. auto.
      + destruct (PyStr.endswith "}" rest) eqn:H2; [|done].
        apply endswith_split in H2 as [x ->].
        rewrite (take_all_but 1 x "}" eq_refl).
        destruct (PyStr.contains_char nl x) eqn:Hnl; [done|].
        intros [= <-]. auto.
    - intros [Hnl [-> | ->]]; rewrite prefix_append, drop_append_length.
      + change ("}" +:+ NL) with ("}" +:+ String nl "").
        rewrite (endswith_other_last "}" path "}"%char nl) by discriminate.
        rewrite endswith_append, (take_all_but 1 path "}" eq_refl). by rewrite Hnl.
      + rewrite endswith_append, (take_all_but 2 path ("}" +:+ NL) eq_refl).
        by rewrite Hnl. }
  split; [exact Himg|].
  rewrite svg_pattern_Some, Himg. tauto.
Qed.

Lemma no_sep_not_absolute s :
  PyStr.rfind PosixPath.sep s = None -> PyStr.startswith "/" s = false.
Proof.
  destruct s as [|c s]; [done|]. intros Hr.
  unfold PyStr.startswith. rewrite prefix_String.
  destruct (ascii_dec "/" c) as [<-|]; [|done].
  cbn [PyStr.rfind] in Hr. destruct (PyStr.rfind PosixPath.sep s); discriminate.
Qed.

Lemma join_relative (dir name : string) :
  PyStr.startswith "/" name = false -> exists x, PosixPath.join dir name = dir +:+ x.
Proof.
  intros Hname. unfold PosixPath.join. rewrite Hname.
  destruct (String.eqb dir "" || PyStr.endswith "/" dir); eauto.
Qed.

Lemma take_append_relative n s t :
  PyStr.startswith "/" s = false -> PyStr.startswith "/" t = false ->
  PyStr.startswith "/" (PyStr.take n s +:+ t) = false.
Proof.
  intros Hs Ht. destruct n as [|n]; [done|]. destruct s as [|c s]; [done|].
  simpl PyStr.take. rewrite append_String. unfold PyStr.startswith in *.
  rewrite prefix_String in *. destruct (ascii_dec "/" c); [|done].
  by rewrite prefix_empty in Hs.
Qed.

Lemma splitext_root_take p :
  exists n, fst (PosixPath.splitext p) = PyStr.take n p.
Proof.
  assert (p = PyStr.take (String.length p) p) as Hall.
  { rewrite <- (take_append_length p "") at 1. f_equal.
    clear. induction p as [|c p IH]; [done|]. by rewrite append_String, IH. }
  unfold PosixPath.splitext. destruct (PyStr.rfind PosixPath.extsep p) as [dotIndex|].
  - cbv zeta. match goal with |- context [if ?c then _ else _] => destruct c end; simpl.
    + by exists dotIndex.
    + by exists (String.length p).
  - by exists (String.length p).
Qed.

(** X13: where the staged file goes.  When the directory of the captured
    path is not absolute, the staging directory and both staged paths start
    with [./tmp/] followed by that directory; when it is absolute,
    [os.path.join] drops [./tmp/] and the staging directory is the
    directory of the source itself. *)
Theorem X13_staged_under_tmp path :
  (PyStr.startswith "/" (fst (PosixPath.split path)) = false ->
   staging_directory path = "./tmp/" +:+ fst (PosixPath.split path) /\
   (exists x, staged_copy path = "./tmp/" +:+ fst (PosixPath.split path) +:+ x) /\
   (exists x, staged_pdf path = "./tmp/" +:+ fst (PosixPath.split path) +:+ x)) /\
  (PyStr.startswith "/" (fst (PosixPath.split path)) = true ->
   staging_directory path = fst (PosixPath.split path)).
Proof.
  split.
  - intros Hrel.
    assert (staging_directory path = "./tmp/" +:+ fst (PosixPath.split path)) as Hdir.
    { unfold staging_directory, PosixPath.join. by rewrite Hrel. }
    pose proof (no_sep_not_absolute _ (split_tail_no_sep path)) as Hfile.
    split_and!; [done| |].
    + unfold staged_copy.
      destruct (join_relative (staging_directory path) _ Hfile) as [x ->].
      exists x. by rewrite Hdir, append_assoc.
    + unfold staged_pdf.
      destruct (splitext_root_take (snd (PosixPath.split path))) as [n ->].
      destruct (join_relative (staging_directory path)
                  (PyStr.take n (snd (PosixPath.split path)) +:+ ".pdf")) as [x ->].
      { by apply take_append_relative. }
      exists x. by rewrite Hdir, append_assoc.
  - intros Habs. unfold staging_directory, PosixPath.join. by rewrite Habs.
Qed.

End PatternShape.

Lemma X12_pattern_lines_witness :
  img_pattern ("\includegraphics{../a b/c.svg}" +:+ NL) = Some "a b/c.svg" /\
  svg_pattern "\includegraphics{../a b/c.svg}" = Some "a b/c.svg" /\
  ~ (exists path, img_pattern "see \includegraphics{../c.png}" = Some path).
Proof.
  split_and!.
  - apply (proj1 (X12_pattern_lines _ "a b/c.svg")). split; [reflexivity|]. by right.
  - apply (proj2 (X12_pattern_lines _ "a b/c.svg")). split_and!; [reflexivity..|]. by left.
  - intros [path Hp].
    apply (proj1 (X12_pattern_lines _ path)) in Hp as [_ [Hp|Hp]]; discriminate.
Defined.

Lemma X13_staged_under_tmp_witness :
  staging_directory "images/sub/logo.svg" = "./tmp/images/sub" /\
  (exists x, staged_pdf "images/sub/logo.svg" = "./tmp/images/sub" +:+ x) /\
  staging_directory "/srv/logo.png" = "/srv" /\
  staged_copy "/srv/logo.png" = "/srv/logo.png".
Proof.
  destruct (X13_staged_under_tmp "images/sub/logo.svg") as [Hrel _].
  destruct (X13_staged_under_tmp "/srv/logo.png") as [_ Habs].
  split_and!.
  - apply Hrel. reflexivity.
  - destruct (Hrel eq_refl) as (_ & _ & [x Hx]). exists x. exact Hx.
  - apply Habs. reflexivity.
  - unfold staged_copy. rewrite (Habs eq_refl). reflexivity.
Defined.

(** * Further properties of extraction and of the driver *)

Section ExtractionErrors.

Variable yaml_load : string -> yaml_failure + yaml_doc.
Implicit Types (s : string) (e : exn).

Lemma extracted_raised mid rest e :
  extracted yaml_load mid rest = Raised e ->
  (exists text,
     yaml_load mid = inl (YAMLError text) /\
     e = Exn ValueError
           ("Invalid YAML front matter; improperly formatted YAML: " +:+ text)) \/
  yaml_load mid = inl (OtherException e).
Proof.
  unfold extracted. destruct (yaml_load mid) as [[text|e']|fm]; [| |done].
  - intros [= <-]. left. by exists text.
  - intros [= <-]. by right.
Qed.

(** X14: what extraction can raise.  With fewer than two delimiters it
    is the [ValueError] with the bare message.  Otherwise it comes from
    parsing the block between the first two delimiters: a [YAMLError] of
    the parser is raised as the [ValueError] with the parser's text after
    the message, and any other exception of the parser goes out as it is,
    not wrapped.  So where the parser raises nothing but [YAMLError],
    every exception of extraction is the spec's FormatError. *)
Theorem X14_extraction_errors s :
  (forall e,
     _extract_yaml_front_matter yaml_load s = Raised e ->
     (str_count front_matter_delimiter s <= 1 /\
      e = Exn ValueError "Invalid YAML front matter") \/
     (exists pre mid rest,
        s = pre +:+ front_matter_delimiter +:+ mid +:+ front_matter_delimiter +:+ rest /\
        str_count front_matter_delimiter pre = 0 /\
        str_count front_matter_delimiter mid = 0 /\
        ((exists text,
            yaml_load mid = inl (YAMLError text) /\
            e = Exn ValueError
                  ("Invalid YAML front matter; improperly formatted YAML: " +:+ text)) \/
         yaml_load mid = inl (OtherException e)))) /\
  (str_count front_matter_delimiter s <= 1 ->
   _extract_yaml_front_matter yaml_load s
   = Raised (Exn ValueError "Invalid YAML front matter")) /\
  (forall pre mid rest,
     s = pre +:+ front_matter_delimiter +:+ mid +:+ front_matter_delimiter +:+ rest ->
     str_count front_matter_delimiter pre = 0 ->
     str_count front_matter_delimiter mid = 0 ->
     (forall text,
        yaml_load mid = inl (YAMLError text) ->
        _extract_yaml_front_matter yaml_load s
        = Raised (Exn ValueError
                    ("Invalid YAML front matter; improperly formatted YAML: " +:+ text))) /\
     (forall e,
        yaml_load mid = inl (OtherException e) ->
        _extract_yaml_front_matter yaml_load s = Raised e)) /\
  ((forall block e, yaml_load block <> inl (OtherException e)) ->
   forall e, _extract_yaml_front_matter yaml_load s = Raised e -> FormatError e).
Proof.
  assert (forall e,
     _extract_yaml_front_matter yaml_load s = Raised e ->
     (str_count front_matter_delimiter s <= 1 /\
      e = Exn ValueError "Invalid YAML front matter") \/
     (exists pre mid rest,
        s = pre +:+ front_matter_delimiter +:+ mid +:+ front_matter_delimiter +:+ rest /\
        str_count front_matter_delimiter pre = 0 /\
        str_count front_matter_delimiter mid = 0 /\
        ((exists text,
            yaml_load mid = inl (YAMLError text) /\
            e = Exn ValueError
                  ("Invalid YAML front matter; improperly formatted YAML: " +:+ text)) \/
         yaml_load mid = inl (OtherException e)))) as Hcases.
  { intros e He.
    destruct (decide (str_count front_matter_delimiter s <= 1)) as [Hfew|Hmany].
    - left. rewrite extract_too_few in He by done. by injection He as <-.
    - right.
      destruct (first_delimiter s) as (pre & t & -> & Hpre & Hcount); [lia|].
      destruct (first_delimiter t) as (mid & rest & -> & Hmid & _); [lia|].
      rewrite extract_two_delimiters in He by done.
      exists pre, mid, rest. split_and!; [done..|]. by apply (extracted_raised mid rest). }
  split_and!; [exact Hcases | apply extract_too_few | |].
  { intros pre mid rest -> Hpre Hmid.
    rewrite extract_two_delimiters by done. unfold extracted.
    split; [intros text Hload | intros e Hload]; by rewrite Hload. }
  intros Hyaml e He.
  destruct (Hcases e He) as [[_ ->] | (pre & mid & rest & _ & _ & _ & [[text [_ ->]] | Hother])].
  - by split.
  - split; reflexivity.
  - by destruct (Hyaml mid e).
Qed.

End ExtractionErrors.

Lemma X14_extraction_errors_witness :
  let dated :=
    front_matter_delimiter +:+ date_block +:+ front_matter_delimiter +:+ "body" in
  let broken :=
    front_matter_delimiter +:+ "title: [" +:+ NL +:+ front_matter_delimiter +:+ "body" in
  _extract_yaml_front_matter date_yaml_load dated
  = Raised (Exn ValueError "month must be in 1..12") /\
  (exists pre mid rest,
     dated = pre +:+ front_matter_delimiter +:+ mid +:+ front_matter_delimiter +:+ rest /\
     date_yaml_load mid = inl (OtherException (Exn ValueError "month must be in 1..12"))) /\
  _extract_yaml_front_matter sample_yaml_load broken
  = Raised (Exn ValueError
              "Invalid YAML front matter; improperly formatted YAML: could not parse") /\
  FormatError (Exn ValueError
                 "Invalid YAML front matter; improperly formatted YAML: could not parse").
Proof.
  intros dated broken.
  assert (_extract_yaml_front_matter date_yaml_load dated
          = Raised (Exn ValueError "month must be in 1..12")) as Hdated by reflexivity.
  assert (_extract_yaml_front_matter sample_yaml_load broken
          = Raised (Exn ValueError
                      "Invalid YAML front matter; improperly formatted YAML: could not parse"))
    as Hbroken by reflexivity.
  split_and!; [exact Hdated | | exact Hbroken |].
  - destruct (proj1 (X14_extraction_errors date_yaml_load dated) _ Hdated)
      as [[_ Hbare] | (pre & mid & rest & Heq & _ & _ & [[text [_ Hwrapped]] | Hother])].
    + discriminate.
    + discriminate.
    + by exists pre, mid, rest.
  - apply (proj2 (proj2 (proj2 (X14_extraction_errors sample_yaml_load broken))));
      [|exact Hbroken].
    intros block e. unfold sample_yaml_load.
    destruct (String.eqb block sample_block); discriminate.
Defined.

Section Driver.

Context `{OS}.
Variable Ctx : Type.
Variable yaml_load : string -> yaml_failure + yaml_doc.
Implicit Types (fm : yaml_doc) (ctx : Ctx) (w : world) (lines : list string).

(** The three insertion passes of the driver over its local list. *)
Lemma patch_and_write_run fm ctx output_file lines w :
  patch_and_write Ctx fm ctx output_file (Store lines w)
  = match insertion_passes Ctx fm ctx lines with
    | (Raised e, lines1) => (Raised e, Store lines1 w)
    | (Returned _, lines1) =>
        match handle_images Ctx fm ctx (Store lines1 w) with
        | (Raised e, st) => (Raised e, st)
        | (Returned _, st) =>
            in_world (file_write output_file (PyStr.join NL (tex_lines st))) st
        end
    end.
Proof.
  unfold patch_and_write, insertion_passes, bind, on_lines, get. cbn [tex_lines os].
  destruct (add_margins Ctx fm ctx lines) as [[[]|e] l1]; [|done]. cbn [tex_lines os].
  destruct (add_title_and_toc Ctx fm ctx l1) as [[[]|e] l2]; [|done]. cbn [tex_lines os].
  destruct (add_header_and_footer Ctx fm ctx l2) as [[[]|e] l3]; [|done].
  by destruct (handle_images Ctx fm ctx (Store l3 w)) as [[[]|e] st].
Qed.

(** X15: the ways the driver stops before any line is patched.  A read
    that raises, or an extraction that raises, is raised by the driver
    with pandoc not run; a pandoc run that raises is raised as it is, and
    one that returns a non-zero code makes the driver raise
    [ValueError('Pandoc failed to convert markdown to latex')]; in each
    case the world is as the last of these steps left it, so nothing is
    staged or written. *)
Theorem X15_driver_stops_early input_filename ctx output_file w :
  (forall e w1,
     read_text input_filename w = (Raised e, w1) ->
     yaml_gfm_to_tex Ctx yaml_load input_filename ctx output_file w = (Raised e, w1)) /\
  (forall text w1,
     read_text input_filename w = (Returned text, w1) ->
     (forall e,
        _extract_yaml_front_matter yaml_load text = Raised e ->
        yaml_gfm_to_tex Ctx yaml_load input_filename ctx output_file w = (Raised e, w1)) /\
     (forall markdown fm,
        _extract_yaml_front_matter yaml_load text = Returned (markdown, fm) ->
        (forall e w2,
           subprocess_run pandoc_argv markdown w1 = (Raised e, w2) ->
           yaml_gfm_to_tex Ctx yaml_load input_filename ctx output_file w
           = (Raised e, w2)) /\
        (forall returncode stdout w2,
           subprocess_run pandoc_argv markdown w1 = (Returned (returncode, stdout), w2) ->
           returncode <> 0%Z ->
           yaml_gfm_to_tex Ctx yaml_load input_filename ctx output_file w
           = (Raised (Exn ValueError "Pandoc failed to convert markdown to latex"), w2)))).
Proof.
  split; [|intros text w1 Hread; split; [|intros markdown fm Hx; split]].
  - intros e w1 Hread. unfold yaml_gfm_to_tex, bind. by rewrite Hread.
  - intros e He. unfold yaml_gfm_to_tex, bind, eval. by rewrite Hread, He.
  - intros e w2 Hrun. unfold yaml_gfm_to_tex, _convert_with_pandoc, bind, eval.
    fold pandoc_argv. by rewrite Hread, Hx, Hrun.
  - intros returncode stdout w2 Hrun Hcode.
    unfold yaml_gfm_to_tex, _convert_with_pandoc, bind, eval.
    fold pandoc_argv. rewrite Hread, Hx, Hrun. simpl.
    by destruct (Z.eqb_spec returncode 0).
Qed.

(** X16: after a pandoc run that returns code 0, the driver patches the
    lines of pandoc's output, split at newlines, with the three insertion
    passes and then the image pass, and writes once, last: the lines
    joined with newlines.  When an insertion pass raises, the driver raises
    with the world as pandoc left it; when the image pass raises, with the
    world as the image pass left it; in neither case is anything
    written. *)
Theorem X16_driver_writes_last input_filename ctx output_file w text w1 markdown fm stdout w2 :
  read_text input_filename w = (Returned text, w1) ->
  _extract_yaml_front_matter yaml_load text = Returned (markdown, fm) ->
  subprocess_run pandoc_argv markdown w1 = (Returned (0%Z, stdout), w2) ->
  yaml_gfm_to_tex Ctx yaml_load input_filename ctx output_file w
  = match insertion_passes Ctx fm ctx (PyStr.split NL stdout) with
    | (Raised e, _) => (Raised e, w2)
    | (Returned _, lines) =>
        match handle_images Ctx fm ctx (Store lines w2) with
        | (Raised e, st) => (Raised e, os st)
        | (Returned _, st) =>
            file_write output_file (PyStr.join NL (tex_lines st)) (os st)
        end
    end.
Proof.
  intros Hread Hx Hrun. unfold yaml_gfm_to_tex.
  unfold bind at 1. rewrite Hread. cbn beta iota.
  unfold bind at 1, eval. rewrite Hx. cbn beta iota.
  unfold bind at 1. unfold _convert_with_pandoc. fold pandoc_argv.
  unfold bind at 1. rewrite Hrun. cbn [fst snd Z.eqb negb ret]. cbn beta iota.
  rewrite patch_and_write_run.
  destruct (insertion_passes Ctx fm ctx (PyStr.split NL stdout)) as [[[]|e] lines]; [|done].
  destruct (handle_images Ctx fm ctx (Store lines w2)) as [[[]|e] st]; [|done].
  unfold in_world. by destruct (file_write _ _ _).
Qed.

End Driver.

Lemma X15_driver_stops_early_witness :
  let w := Sim.State (<["doc.md" := sample_text]> ∅) [] in
  @yaml_gfm_to_tex Sim.sim_os unit sample_yaml_load "missing.md" tt tt w
  = (Raised (Exn FileNotFoundError "missing.md"), w) /\
  @yaml_gfm_to_tex failing_pandoc_os unit sample_yaml_load "doc.md" tt tt w
  = (Raised (Exn ValueError "Pandoc failed to convert markdown to latex"),
     Sim.State (<["doc.md" := sample_text]> ∅) [Sim.Converted ("# Hello" +:+ NL)]).
Proof.
  intros w. split.
  - apply (proj1 (@X15_driver_stops_early Sim.sim_os unit sample_yaml_load
                    "missing.md" tt tt w)).
    reflexivity.
  - destruct (@X15_driver_stops_early failing_pandoc_os unit sample_yaml_load
                "doc.md" tt tt w) as [_ Hread].
    destruct (Hread sample_text w eq_refl) as [_ Hextracted].
    destruct (Hextracted ("# Hello" +:+ NL) sample_front_matter eq_refl) as [_ Hcode].
    apply (Hcode 1%Z ""); [reflexivity | discriminate].
Defined.

Lemma X16_driver_writes_last_witness :
  let w := Sim.State (<["doc.md" := sample_text]> ∅) [] in
  let w2 := Sim.record (Sim.Converted ("# Hello" +:+ NL)) w in
  yaml_gfm_to_tex unit sample_yaml_load "doc.md" tt tt w
  = match insertion_passes unit sample_front_matter tt
            (PyStr.split NL (Sim.pandoc ("# Hello" +:+ NL))) with
    | (Raised e, _) => (Raised e, w2)
    | (Returned _, lines) =>
        match handle_images unit sample_front_matter tt (Store lines w2) with
        | (Raised e, st) => (Raised e, os st)
        | (Returned _, st) => file_write tt (PyStr.join NL (tex_lines st)) (os st)
        end
    end.
Proof.
  intros w w2.
  apply (@X16_driver_writes_last Sim.sim_os unit sample_yaml_load "doc.md" tt tt w
           sample_text w ("# Hello" +:+ NL) sample_front_matter
           (Sim.pandoc ("# Hello" +:+ NL)) w2);
    reflexivity.
Defined.

(** * Lines and newlines *)

Section Newlines.

Implicit Types (s : string) (c : ascii).

Lemma prefix_newline c s :
  String.prefix NL (String c s) = if ascii_dec nl c then true else false.
Proof. unfold NL. by rewrite prefix_String, prefix_empty. Qed.

Lemma split_newline c s :
  PyStr.split NL (String c s)
  = if Ascii.eqb c nl then "" :: PyStr.split NL s
    else match PyStr.split NL s with
         | p :: ps => String c p :: ps
         | [] => []
         end.
Proof.
  unfold PyStr.split. rewrite split_go_here, prefix_newline.
  change (String.length NL - 1) with 0.
  destruct (Ascii.eqb_spec c nl) as [->|Hne].
  - destruct (ascii_dec nl nl); [|done]. by destruct (PyStr.split_go NL 0 s).
  - destruct (ascii_dec nl c) as [<-|]; [done|]. by destruct (PyStr.split_go NL 0 s).
Qed.

Lemma split_newline_not_nil s : PyStr.split NL s <> [].
Proof. unfold PyStr.split. by destruct (PyStr.split_go NL 0 s). Qed.

(** X17: the driver's way from text to lines and back loses nothing:
    the lines [tex.split('\n')] gives hold no newline, there is one more of
    them than newlines in the text, and joining them with newlines gives
    the text back, so the driver changes pandoc's output only where a pass
    changes the lines. *)
Theorem X17_lines_round_trip s :
  PyStr.join NL (PyStr.split NL s) = s /\
  Forall (fun line => PyStr.contains_char nl line = false) (PyStr.split NL s) /\
  length (PyStr.split NL s) = S (str_count NL s).
Proof.
  induction s as [|c s (IHjoin & IHlines & IHlen)]; [by split_and!; [|repeat constructor|]|].
  rewrite split_newline. cbn [str_count]. rewrite prefix_newline.
  pose proof (split_newline_not_nil s) as Hnil.
  destruct (PyStr.split NL s) as [|p ps] eqn:Hs; [done|].
  apply Forall_cons in IHlines as [Hp Hps].
  destruct (Ascii.eqb_spec c nl) as [->|Hne].
  - destruct (ascii_dec nl nl); [|done]. split_and!.
    + unfold PyStr.join in *. cbn [String.concat] in *. by rewrite IHjoin.
    + by repeat constructor.
    + simpl in *. lia.
  - destruct (ascii_dec nl c) as [<-|]; [done|]. split_and!.
    + unfold PyStr.join in *. destruct ps; cbn [String.concat] in *;
        by rewrite ?append_String, IHjoin.
    + constructor; [|done]. simpl. rewrite Hp.
      by destruct (Ascii.eqb_spec c nl).
    + simpl in *. lia.
Qed.

End Newlines.

(** * The margins pass and the anchor passes *)

Section Commute.

Variable Ctx : Type.
Implicit Types (fm : yaml_doc) (ctx : Ctx) (lines new after : list string).

Lemma margins_commutes_around fm ctx after new lines :
  documentclass_one_line ∈ lines -> begin_document ∈ lines ->
  documentclass_one_line ∉ new -> documentclass_one_line ∉ after ->
  (add_margins Ctx fm ctx ;;;
   (begin_document_index <- PyList.index begin_document ;;
    _insert_liness (begin_document_index + 1) after ;;;
    new_lines <- eval (Returned new) ;;
    _insert_liness begin_document_index new_lines)) lines
  = ((begin_document_index <- PyList.index begin_document ;;
      _insert_liness (begin_document_index + 1) after ;;;
      new_lines <- eval (Returned new) ;;
      _insert_liness begin_document_index new_lines) ;;;
     add_margins Ctx fm ctx) lines.
Proof.
  intros Hdc Hbd Hnew Hafter.
  destruct (elem_of_first _ _ Hdc) as (A & B & -> & HA).
  apply elem_of_app in Hbd as [HbdA|HbdB].
  - destruct (elem_of_first _ _ HbdA) as (A1 & A2 & -> & HA1).
    apply not_elem_of_app in HA as [HdcA1 HdcA2].
    apply not_elem_of_cons in HdcA2 as [_ HdcA2].
    unfold bind at 1. rewrite add_margins_one_line
      by (rewrite not_elem_of_app, not_elem_of_cons; by split_and!).
    replace ((A1 ++ begin_document :: A2) ++ documentclass_one_line :: geometry :: B)
      with (A1 ++ begin_document :: A2 ++ documentclass_one_line :: geometry :: B)
      by (by rewrite <- app_assoc).
    rewrite around_anchor_run by done.
    unfold bind at 1.
    replace ((A1 ++ begin_document :: A2) ++ documentclass_one_line :: B)
      with (A1 ++ begin_document :: A2 ++ documentclass_one_line :: B)
      by (by rewrite <- app_assoc).
    rewrite around_anchor_run by done.
    replace (A1 ++ new ++ begin_document :: after ++ A2 ++ documentclass_one_line :: B)
      with ((A1 ++ new ++ begin_document :: after ++ A2) ++ documentclass_one_line :: B)
      by (by rewrite <- !app_assoc; simpl; rewrite <- !app_assoc).
    rewrite add_margins_one_line.
    + f_equal. by rewrite <- !app_assoc; simpl; rewrite <- !app_assoc.
    + rewrite !not_elem_of_app, not_elem_of_cons, not_elem_of_app. by split_and!.
  - apply elem_of_cons in HbdB as [|HbdB]; [done|].
    destruct (elem_of_first _ _ HbdB) as (B1 & B2 & -> & HB1).
    destruct (decide (begin_document ∈ A)) as [HbdA|HbdA].
    { (* the anchor also stands before the declaration: the case above *)
      destruct (elem_of_first _ _ HbdA) as (A1 & A2 & -> & HA1).
      apply not_elem_of_app in HA as [HdcA1 HdcA2].
      apply not_elem_of_cons in HdcA2 as [_ HdcA2].
      unfold bind at 1. rewrite add_margins_one_line
        by (rewrite not_elem_of_app, not_elem_of_cons; by split_and!).
      replace ((A1 ++ begin_document :: A2) ++ documentclass_one_line :: geometry ::
                 B1 ++ begin_document :: B2)
        with (A1 ++ begin_document :: A2 ++ documentclass_one_line :: geometry ::
                 B1 ++ begin_document :: B2)
        by (by rewrite <- app_assoc).
      rewrite around_anchor_run by done.
      unfold bind at 1.
      replace ((A1 ++ begin_document :: A2) ++ documentclass_one_line ::
                 B1 ++ begin_document :: B2)
        with (A1 ++ begin_document :: A2 ++ documentclass_one_line ::
                 B1 ++ begin_document :: B2)
        by (by rewrite <- app_assoc).
      rewrite around_anchor_run by done.
      replace (A1 ++ new ++ begin_document :: after ++ A2 ++ documentclass_one_line ::
                 B1 ++ begin_document :: B2)
        with ((A1 ++ new ++ begin_document :: after ++ A2) ++ documentclass_one_line ::
                 B1 ++ begin_document :: B2)
        by (by rewrite <- !app_assoc; simpl; rewrite <- !app_assoc).
      rewrite add_margins_one_line.
      + f_equal. by rewrite <- !app_assoc; simpl; rewrite <- !app_assoc.
      + rewrite !not_elem_of_app, not_elem_of_cons, not_elem_of_app. by split_and!. }
    unfold bind at 1. rewrite add_margins_one_line by done.
    replace (A ++ documentclass_one_line :: geometry :: B1 ++ begin_document :: B2)
      with ((A ++ documentclass_one_line :: geometry :: B1) ++ begin_document :: B2)
      by (by rewrite <- app_assoc).
    rewrite around_anchor_run
      by (rewrite not_elem_of_app, !not_elem_of_cons; by split_and!).
    unfold bind at 1.
    replace (A ++ documentclass_one_line :: B1 ++ begin_document :: B2)
      with ((A ++ documentclass_one_line :: B1) ++ begin_document :: B2)
      by (by rewrite <- app_assoc).
    rewrite around_anchor_run
      by (rewrite not_elem_of_app, !not_elem_of_cons; by split_and!).
    replace ((A ++ documentclass_one_line :: B1) ++ new ++ begin_document :: after ++ B2)
      with (A ++ documentclass_one_line :: B1 ++ new ++ begin_document :: after ++ B2)
      by (by rewrite <- app_assoc).
    rewrite add_margins_one_line by done.
    f_equal. by rewrite <- app_assoc.
Qed.

Lemma documentclass_not_in_blocks title id revision manufacturer_name :
  (documentclass_one_line ∉ title_block title id revision manufacturer_name) /\
  (documentclass_one_line ∉ header_block title id revision) /\
  (documentclass_one_line ∉ toc_after) /\
  (documentclass_one_line ∉ header_after).
Proof.
  unfold title_block, header_block, toc_after, header_after.
  rewrite !not_elem_of_cons.
  split_and!; try (vm_compute; discriminate); apply not_elem_of_nil.
Qed.

(** X18: on a document with the one-line class declaration and a
    [\begin{document}] line, with a front matter that provides the keys,
    the margins pass can run before or after the title pass, and before or
    after the header pass: the lines come out the same, wherever the two
    anchors stand to each other. *)
Theorem X18_margins_commutes fm ctx title id revision manufacturer_name lines :
  provides fm title id revision manufacturer_name ->
  documentclass_one_line ∈ lines -> begin_document ∈ lines ->
  (add_margins Ctx fm ctx ;;; add_title_and_toc Ctx fm ctx) lines
  = (add_title_and_toc Ctx fm ctx ;;; add_margins Ctx fm ctx) lines /\
  (add_margins Ctx fm ctx ;;; add_header_and_footer Ctx fm ctx) lines
  = (add_header_and_footer Ctx fm ctx ;;; add_margins Ctx fm ctx) lines.
Proof.
  intros Hfm Hdc Hbd.
  destruct (documentclass_not_in_blocks title id revision manufacturer_name)
    as (Ht & Hh & Hta & Hha).
  unfold add_title_and_toc, add_header_and_footer.
  rewrite (title_lines_provided _ _ _ _ _ Hfm), (header_lines_provided _ _ _ _ _ Hfm).
  split; by apply margins_commutes_around.
Qed.

End Commute.

Lemma X18_margins_commutes_witness :
  let lines := [begin_document; "Hello"; documentclass_one_line] in
  (add_margins unit sample_front_matter tt ;;;
   add_title_and_toc unit sample_front_matter tt) lines
  = (add_title_and_toc unit sample_front_matter tt ;;;
     add_margins unit sample_front_matter tt) lines /\
  (add_margins unit sample_front_matter tt ;;;
   add_header_and_footer unit sample_front_matter tt) lines
  = (add_header_and_footer unit sample_front_matter tt ;;;
     add_margins unit sample_front_matter tt) lines.
Proof.
  intros lines.
  apply (X18_margins_commutes unit sample_front_matter tt "Spec" "DOC-1" (VInt 2) "Acme").
  - apply sample_front_matter_provides.
  - do 2 apply list_elem_of_further. apply list_elem_of_here.
  - apply list_elem_of_here.
Defined.
